(** * TRNG measurement and post-processing: a shallow embedding

    This development embeds the two Python programs of the repository,

    - [DiffProcessingTechniques.py]: Von Neumann, XOR and residual
      processing of a bit string and their per-pair cascade, and
    - [trngMeasurementScriptV2.py]: the PicoScope streaming callback
      that samples the data channel on clock edges, and the polling
      loop that decides when the recording stops,

    and proves properties of them.

    Conventions.  Python [str] values are [string]s, Python integers
    are [Z], numpy integer arrays are [list Z].  Python floats (voltages
    and wall-clock times) are read as exact rationals [Q]; no statement
    below depends on the outcome of a rounding. *)

From Stdlib Require Import ZArith QArith List Lia Bool Ascii String DecimalString.
Import ListNotations.

Local Open Scope string_scope.
Local Open Scope list_scope.
Local Open Scope Z_scope.

(** ** Python builtins used by the sources *)

Module Py.

(** [range(start, stop, step)] for a positive [step]: Python gives it
    [max 0 ((stop - start + step - 1) // step)] elements. *)
Definition range (start stop step : Z) : list Z :=
  map (fun k => start + step * Z.of_nat k)
      (seq 0 (Z.to_nat ((stop - start + step - 1) / step))).

(** Normalisation of a slice bound against a sequence of length [len]:
    a negative bound counts from the end, and the result is clamped
    to [0 .. len]. *)
Definition bound (len i : Z) : Z :=
  Z.max 0 (Z.min len (if Z.ltb i 0 then i + len else i)).

(** [s[i:j]] on a string. *)
Definition slice (s : string) (i j : Z) : string :=
  let len := Z.of_nat (String.length s) in
  let lo := bound len i in
  let hi := bound len j in
  substring (Z.to_nat lo) (Z.to_nat (hi - lo)) s.

(** [l[:k]] on a sequence. *)
Definition take {A : Type} (l : list A) (k : Z) : list A :=
  firstn (Z.to_nat (bound (Z.of_nat (List.length l)) k)) l.

(** [''.join(parts)]. *)
Definition join (parts : list string) : string := String.concat "" parts.

(** [len(s)] on a string. *)
Definition len (s : string) : Z := Z.of_nat (String.length s).

(** [str(n)] on an integer. *)
Definition str (n : Z) : string := NilZero.string_of_int (Z.to_int n).

End Py.

(** ** DiffProcessingTechniques.py *)

Module DiffProcessing.

(** Each function is a [for] loop over [range(0, len(data) - 1, 2)]
    that appends single-character strings to the list [result]; the
    loop is a left fold whose accumulator is that list. *)

Definition vonNeumannProcessing (data : string) : string :=
  let result :=
    fold_left
      (fun (result : list string) (i : Z) =>
         let pair := Py.slice data i (i + 2) in
         if String.eqb pair "10" then result ++ ["0"]
         else if String.eqb pair "01" then result ++ ["1"]
         else result)
      (Py.range 0 (Py.len data - 1) 2) [] in
  Py.join result.

Definition xorProcessing (data : string) : string :=
  let result :=
    fold_left
      (fun (result : list string) (i : Z) =>
         let pair := Py.slice data i (i + 2) in
         if String.eqb pair "01" || String.eqb pair "10"
         then result ++ ["1"]
         else result ++ ["0"])
      (Py.range 0 (Py.len data - 1) 2) [] in
  Py.join result.

Definition residualProcessing (data : string) : string :=
  let result :=
    fold_left
      (fun (result : list string) (i : Z) =>
         let pair := Py.slice data i (i + 2) in
         if String.eqb pair "11" then result ++ ["1"]
         else if String.eqb pair "00" then result ++ ["0"]
         else result)
      (Py.range 0 (Py.len data - 1) 2) [] in
  Py.join result.

(** The three placeholders [svn_bit], [sxor_bit], [sr_bit] of the
    cascade; [None] is Python's [None]. *)
Definition pairBits (pair : string)
  : option string * option string * option string :=
  if String.eqb pair "00" then (None, Some "0", Some "0")
  else if String.eqb pair "01" then (Some "1", Some "1", None)
  else if String.eqb pair "10" then (Some "0", Some "1", None)
  else if String.eqb pair "11" then (None, Some "0", Some "1")
  else (None, None, None).

(** [if bit is not None: cascaded_result.append(bit)]. *)
Definition appendIfSet (acc : list string) (bit : option string)
  : list string :=
  match bit with
  | Some b => acc ++ [b]
  | None => acc
  end.

Definition iteratedVonNeumann (data : string) : string :=
  let cascaded_result :=
    fold_left
      (fun (cascaded_result : list string) (i : Z) =>
         let pair := Py.slice data i (i + 2) in
         let '(svn_bit, sxor_bit, sr_bit) := pairBits pair in
         let cascaded_result := appendIfSet cascaded_result svn_bit in
         let cascaded_result := appendIfSet cascaded_result sxor_bit in
         appendIfSet cascaded_result sr_bit)
      (Py.range 0 (Py.len data - 1) 2) [] in
  Py.join cascaded_result.

End DiffProcessing.

(** ** trngMeasurementScriptV2.py *)

Module Measurement.

(** An exception leaving the modelled code. *)
Inductive Exception := IndexError.

Inductive Result (A : Type) : Type :=
| Ok (a : A)
| Raise (e : Exception).
Arguments Ok {A} a.
Arguments Raise {A} e.

(** The numpy operations of the callback, on one-dimensional integer
    arrays. *)
Module Np.

(** [np.diff(a)]: [a[j+1] - a[j]] for every [j], empty below two
    elements. *)
Fixpoint diff (a : list Z) : list Z :=
  match a with
  | x :: ((y :: _) as rest) => (y - x) :: diff rest
  | _ => []
  end.

Fixpoint whereFrom (j : Z) (mask : list bool) : list Z :=
  match mask with
  | [] => []
  | b :: rest =>
      if b then j :: whereFrom (j + 1) rest else whereFrom (j + 1) rest
  end.

(** [np.where(mask)[0]]: the positions of the true entries, ascending. *)
Definition where_ (mask : list bool) : list Z := whereFrom 0 mask.

(** [a[j]] for one integer position: negative positions count from
    the end, anything outside raises [IndexError]. *)
Definition item (a : list Z) (j : Z) : Result Z :=
  let n := Z.of_nat (List.length a) in
  if (0 <=? j) && (j <? n) then Ok (nth (Z.to_nat j) a 0)
  else if (- n <=? j) && (j <? 0) then Ok (nth (Z.to_nat (j + n)) a 0)
  else Raise IndexError.

(** [a[idx]] for an integer array [idx]. *)
Fixpoint index (a : list Z) (idx : list Z) : Result (list Z) :=
  match idx with
  | [] => Ok []
  | j :: rest =>
      match item a j, index a rest with
      | Ok x, Ok xs => Ok (x :: xs)
      | Raise e, _ => Raise e
      | _, Raise e => Raise e
      end
  end.

(** [mask.astype(int)] on one entry. *)
Definition astypeInt (b : bool) : Z := if b then 1 else 0.

(** [np.all(a == 0)]. *)
Definition allZero (a : list Z) : bool := forallb (fun x => x =? 0) a.

End Np.

(** What the script prints, one constructor per [print] statement. *)
Inductive Message :=
| OverflowSkipped
| TimeLimitReached
| TotalSamplesReached
| NoSignalDetected (threshold : Q)
| StatusTime (samples : Z) (elapsed duration : Q)
| StatusSamples (samples total : Z) (elapsed : Q)
| RecordingStopped (elapsed : Q) (samples : Z).

(** The module globals [bufferClock], [bufferData] and
    [samplesCollected], the contents of the output file and the
    console.  The buffers hold the signed 16-bit codes written by the
    driver. *)
Record World := mkWorld {
  bufferClock : list Z;
  bufferData : list Z;
  samplesCollected : Z;
  outputFile : string;
  console : list Message
}.

(** Lines 141-142: the clock channel scaled to volts and thresholded. *)
Definition clkBinaryOf (thresholdClock VOLTAGE_RANGE : Q)
           (noOfSamples : Z) (w : World) : list Z :=
  let clkData :=
    map (fun code => (inject_Z code * (VOLTAGE_RANGE / inject_Z 32767))%Q)
        (Py.take (bufferClock w) noOfSamples) in
  map (fun v => Np.astypeInt (Qle_bool thresholdClock v)) clkData.

(** Lines 144-149: the data channel, with the optional x10 probe. *)
Definition dataBinaryOf (thresholdData VOLTAGE_RANGE : Q)
           (useX10Probe : bool) (noOfSamples : Z) (w : World) : list Z :=
  let dataData :=
    map (fun code => (inject_Z code * (VOLTAGE_RANGE / inject_Z 32767))%Q)
        (Py.take (bufferData w) noOfSamples) in
  let dataData :=
    if useX10Probe then map (fun v => (v * inject_Z 10)%Q) dataData
    else dataData in
  map (fun v => Np.astypeInt (Qle_bool thresholdData v)) dataData.

(** Lines 151-152: [risingEdges] and [sampledBits]. *)
Definition risingEdgesOf (clkBinary : list Z) : list Z :=
  Np.where_ (map (fun d => d =? 1) (Np.diff clkBinary)).

Definition sampleOnEdges (clkBinary dataBinary : list Z)
  : Result (list Z) :=
  Np.index dataBinary (risingEdgesOf clkBinary).

(** The callback.  Its arguments [handle], [startIndex], [triggerAt],
    [triggered], [autoStop] and [pParameter] are never read and are
    left out; [outputFilename] is the file of the world. *)
Definition streamingCallback (noOfSamples overflow : Z)
           (thresholdClock thresholdData VOLTAGE_RANGE : Q)
           (totalSamples : Z) (captureMode : string) (useX10Probe : bool)
           (w : World) : Result World :=
  if overflow =? 0 then
    let clkBinary := clkBinaryOf thresholdClock VOLTAGE_RANGE noOfSamples w in
    let dataBinary :=
      dataBinaryOf thresholdData VOLTAGE_RANGE useX10Probe noOfSamples w in
    match sampleOnEdges clkBinary dataBinary with
    | Raise e => Raise e
    | Ok sampledBits =>
        let sampledBits :=
          if String.eqb captureMode "samples" then
            let remainingSamples := totalSamples - samplesCollected w in
            Py.take sampledBits remainingSamples
          else sampledBits in
        Ok {| bufferClock := bufferClock w;
              bufferData := bufferData w;
              samplesCollected :=
                samplesCollected w + Z.of_nat (List.length sampledBits);
              outputFile :=
                (outputFile w ++ Py.join (map Py.str sampledBits))%string;
              console := console w |}
    end
  else
    Ok {| bufferClock := bufferClock w;
          bufferData := bufferData w;
          samplesCollected := samplesCollected w;
          outputFile := outputFile w;
          console := console w ++ [OverflowSkipped] |}.

(** The callback as the driver sees it, after [functools.partial] has
    fixed the keyword arguments. *)
Definition Callback := Z -> Z -> World -> Result World.

(** The callback of a count-bounded acquisition: [captureMode] fixed
    to "samples". *)
Definition samplesCallback (thresholdClock thresholdData VOLTAGE_RANGE : Q)
           (totalSamples : Z) (useX10Probe : bool) : Callback :=
  fun noOfSamples overflow =>
    streamingCallback noOfSamples overflow thresholdClock thresholdData
      VOLTAGE_RANGE totalSamples "samples" useX10Probe.

(** One buffer handed over by the driver: it fills the two registered
    buffers and calls the callback with the sample count and the
    overflow flag. *)
Record Delivery := mkDelivery {
  newClock : list Z;
  newData : list Z;
  noOfSamples : Z;
  overflow : Z
}.

(** The driver writing a delivery into the registered buffers. *)
Definition loadBuffers (d : Delivery) (w : World) : World :=
  {| bufferClock := newClock d;
     bufferData := newData d;
     samplesCollected := samplesCollected w;
     outputFile := outputFile w;
     console := console w |}.

Definition deliver (callback : Callback) (d : Delivery) (w : World)
  : Result World :=
  callback (noOfSamples d) (overflow d) (loadBuffers d w).

(** [ps4000aGetStreamingLatestValues]: the deliveries of one poll,
    in order.  An exception leaving the callback is reported as the
    result of the poll. *)
Fixpoint getStreamingLatestValues (callback : Callback)
         (poll : list Delivery) (w : World) : Result World :=
  match poll with
  | [] => Ok w
  | d :: rest =>
      match deliver callback d w with
      | Ok w' => getStreamingLatestValues callback rest w'
      | Raise e => Raise e
      end
  end.

(** The local variables of [collectData] that live across iterations. *)
Record LoopVars := mkLoopVars {
  lastStatusUpdate : Z;
  lastTimeUpdate : Q;
  startTime : Q;
  lastSignalTime : Q
}.

(** What one iteration of [while True] receives from outside: the
    deliveries of its poll and the readings of [time.time()] at lines
    194, 196 and 216. *)
Record Tick := mkTick {
  poll : list Delivery;
  timeAtSignal : Q;
  timeAtElapsed : Q;
  timeAtCheck : Q
}.

Inductive Flow :=
| Continue (vars : LoopVars)
| Break.

Definition say (w : World) (m : Message) : World :=
  {| bufferClock := bufferClock w;
     bufferData := bufferData w;
     samplesCollected := samplesCollected w;
     outputFile := outputFile w;
     console := console w ++ [m] |}.

(** Lines 196-218: the stopping conditions and the status updates,
    after the poll. *)
Definition stoppingConditions (mode : string) (durationSeconds : Q)
           (totalSamples : Z) (no_signal_duration_threshold : Q)
           (statusInterval : Z) (timeStatusInterval : Q)
           (timeAtElapsed timeAtCheck : Q)
           (vars : LoopVars) (w : World) : World * Flow :=
  let elapsedTime := (timeAtElapsed - startTime vars)%Q in
  if String.eqb mode "time" then
    if Qle_bool durationSeconds elapsedTime then
      (say w TimeLimitReached, Break)
    else if Qle_bool timeStatusInterval (elapsedTime - lastTimeUpdate vars)
    then
      (say w (StatusTime (samplesCollected w) elapsedTime durationSeconds),
       Continue {| lastStatusUpdate := lastStatusUpdate vars;
                   lastTimeUpdate := elapsedTime;
                   startTime := startTime vars;
                   lastSignalTime := lastSignalTime vars |})
    else (w, Continue vars)
  else if String.eqb mode "samples" then
    if totalSamples <=? samplesCollected w then
      (say w TotalSamplesReached, Break)
    else if lastStatusUpdate vars + statusInterval <=? samplesCollected w
    then
      (say w (StatusSamples (samplesCollected w) totalSamples elapsedTime),
       Continue {| lastStatusUpdate := samplesCollected w;
                   lastTimeUpdate := lastTimeUpdate vars;
                   startTime := startTime vars;
                   lastSignalTime := lastSignalTime vars |})
    else (w, Continue vars)
  else if Qle_bool no_signal_duration_threshold
                   (timeAtCheck - lastSignalTime vars)
  then (say w (NoSignalDetected no_signal_duration_threshold), Break)
  else (w, Continue vars).

(** Lines 191-194: a buffer that is not all zero refreshes
    [lastSignalTime]. *)
Definition refreshSignal (timeAtSignal : Q) (vars : LoopVars) (w : World)
  : LoopVars :=
  if negb (Np.allZero (bufferClock w) && Np.allZero (bufferData w)) then
    {| lastStatusUpdate := lastStatusUpdate vars;
       lastTimeUpdate := lastTimeUpdate vars;
       startTime := startTime vars;
       lastSignalTime := timeAtSignal |}
  else vars.

(** One iteration of the [while True] loop of [collectData]. *)
Definition loopIteration (cFuncPtrToCallbackFunc : Callback)
           (mode : string) (durationSeconds : Q) (totalSamples : Z)
           (no_signal_duration_threshold : Q)
           (statusInterval : Z) (timeStatusInterval : Q)
           (t : Tick) (vars : LoopVars) (w : World)
  : Result (World * Flow) :=
  match getStreamingLatestValues cFuncPtrToCallbackFunc (poll t) w with
  | Raise e => Raise e
  | Ok w =>
      let vars := refreshSignal (timeAtSignal t) vars w in
      Ok (stoppingConditions mode durationSeconds totalSamples
            no_signal_duration_threshold statusInterval timeStatusInterval
            (timeAtElapsed t) (timeAtCheck t) vars w)
  end.

(** The loop over the ticks the outside world supplies: [None] when
    the loop has left through [break], the loop variables when it is
    still running after the last tick. *)
Fixpoint whileTrue (cFuncPtrToCallbackFunc : Callback)
         (mode : string) (durationSeconds : Q) (totalSamples : Z)
         (no_signal_duration_threshold : Q)
         (statusInterval : Z) (timeStatusInterval : Q)
         (ticks : list Tick) (vars : LoopVars) (w : World)
  : Result (World * option LoopVars) :=
  match ticks with
  | [] => Ok (w, Some vars)
  | t :: rest =>
      match loopIteration cFuncPtrToCallbackFunc mode durationSeconds
              totalSamples no_signal_duration_threshold statusInterval
              timeStatusInterval t vars w with
      | Raise e => Raise e
      | Ok (w', Break) => Ok (w', None)
      | Ok (w', Continue vars') =>
          whileTrue cFuncPtrToCallbackFunc mode durationSeconds
            totalSamples no_signal_duration_threshold statusInterval
            timeStatusInterval rest vars' w'
      end
  end.

(** The loop variables as [collectData] sets them before the loop. *)
Definition initialVars (timeAtStart timeAtFirstSignal : Q) : LoopVars :=
  {| lastStatusUpdate := 0;
     lastTimeUpdate := 0;
     startTime := timeAtStart;
     lastSignalTime := timeAtFirstSignal |}.

(** [collectData] up to the end of the supplied ticks: the output file
    is opened for writing, which empties it, the two time stamps are
    taken, the loop runs, and once it has left through [break] the
    closing line is printed. *)
Definition collectData (cFuncPtrToCallbackFunc : Callback)
           (mode : string) (durationSeconds : Q) (totalSamples : Z)
           (no_signal_duration_threshold : Q)
           (statusInterval : Z) (timeStatusInterval : Q)
           (timeAtStart timeAtFirstSignal timeAtEnd : Q)
           (ticks : list Tick) (w : World)
  : Result (World * option LoopVars) :=
  let w := {| bufferClock := bufferClock w;
              bufferData := bufferData w;
              samplesCollected := samplesCollected w;
              outputFile := "";
              console := console w |} in
  match whileTrue cFuncPtrToCallbackFunc mode durationSeconds totalSamples
          no_signal_duration_threshold statusInterval timeStatusInterval
          ticks (initialVars timeAtStart timeAtFirstSignal) w with
  | Raise e => Raise e
  | Ok (w', Some vars) => Ok (w', Some vars)
  | Ok (w', None) =>
      Ok (say w' (RecordingStopped
                    ((timeAtEnd - timeAtStart) * inject_Z 1000)%Q
                    (samplesCollected w')),
          None)
  end.

(** The settings of [main]. *)
Definition THRESHOLD_CLOCK : Q := 3 # 2.
Definition THRESHOLD_DATA : Q := 2.
Definition VOLTAGE_RANGE : Q := 5.
Definition TOTAL_SAMPLES : Z := 10000000.
Definition DURATION_SECONDS : Q := 10.
Definition sizeOfOneBuffer : nat := 500.

Definition cFuncPtr (CAPTURE_MODE : string) (TOTAL_SAMPLES : Z) : Callback :=
  fun noOfSamples overflow =>
    streamingCallback noOfSamples overflow THRESHOLD_CLOCK THRESHOLD_DATA
      VOLTAGE_RANGE TOTAL_SAMPLES CAPTURE_MODE true.

(** The world when [main] starts the acquisition: zeroed buffers, the
    counter at its module-level initial value. *)
Definition initialWorld : World :=
  {| bufferClock := repeat 0 sizeOfOneBuffer;
     bufferData := repeat 0 sizeOfOneBuffer;
     samplesCollected := 0;
     outputFile := "";
     console := [] |}.

(** A batch from a clock that toggles at every sample while the data
    line carries the opposite level, in full-scale codes. *)
Definition togglingBatch : World :=
  {| bufferClock := [0; 32767; 0; 32767];
     bufferData := [32767; 0; 32767; 0];
     samplesCollected := 0;
     outputFile := "";
     console := [] |}.

End Measurement.

(** ** Vocabulary of the statements *)

Module Spec.

(** A bit sequence and its text: the characters ['0'] and ['1']. *)
Definition bitChar (b : bool) : ascii :=
  if b then "1"%char else "0"%char.

Fixpoint bitString (bs : list bool) : string :=
  match bs with
  | [] => EmptyString
  | b :: rest => String (bitChar b) (bitString rest)
  end.

Fixpoint isBitString (s : string) : bool :=
  match s with
  | EmptyString => true
  | String c rest =>
      (Ascii.eqb c "0" || Ascii.eqb c "1") && isBitString rest
  end.

(** The non-overlapping adjacent pairs [(b[2k], b[2k+1])]; a trailing
    unpaired element belongs to no pair. *)
Fixpoint pairsOf {A : Type} (l : list A) : list (A * A) :=
  match l with
  | x :: y :: rest => (x, y) :: pairsOf rest
  | _ => []
  end.

Definition unpair {A : Type} (ps : list (A * A)) : list A :=
  flat_map (fun p => [fst p; snd p]) ps.

(** The same pairs of a text, as two-character strings. *)
Fixpoint pairStrings (s : string) : list string :=
  match s with
  | String a (String b rest) =>
      String a (String b EmptyString) :: pairStrings rest
  | _ => []
  end.

(** The per-pair rules as the specification words them.
    Von Neumann: [10 -> 0], [01 -> 1], nothing for [00] and [11]. *)
Definition svnRule (p : bool * bool) : list bool :=
  match p with
  | (true, false) => [false]
  | (false, true) => [true]
  | (false, false) => []
  | (true, true) => []
  end.

(** XOR: [1] when the two bits differ, [0] when they agree. *)
Definition sxorRule (p : bool * bool) : list bool :=
  if Bool.eqb (fst p) (snd p) then [false] else [true].

(** Residual: [11 -> 1], [00 -> 0], nothing for [01] and [10]. *)
Definition srRule (p : bool * bool) : list bool :=
  match p with
  | (true, true) => [true]
  | (false, false) => [false]
  | (false, true) => []
  | (true, false) => []
  end.

(** Cascade: svn-bit, then sxor-bit, then sr-bit of the pair. *)
Definition cascadeRule (p : bool * bool) : list bool :=
  svnRule p ++ sxorRule p ++ srRule p.

(** A rule applied to every pair, in input order. *)
Definition perPair (rule : bool * bool -> list bool) (bs : list bool)
  : list bool :=
  flat_map rule (pairsOf bs).

(** The indices [i], [1 <= i < n], at which the clock binary signal
    rises: [clockBinary[i] - clockBinary[i-1] == 1], ascending. *)
Definition risingIndices (clockBinary : list Z) : list nat :=
  filter (fun i => nth i clockBinary 0 - nth (i - 1) clockBinary 0 =? 1)
         (seq 1 (List.length clockBinary - 1)).

(** The edge sampler as the specification words it: the data bit at
    every rising index. *)
Definition sampleAtEdge (clockBinary dataBinary : list Z) : list Z :=
  map (fun i => nth i dataBinary 0) (risingIndices clockBinary).

(** The edge sampler one position earlier: the data bit at the last
    sample before the clock has risen. *)
Definition sampleBeforeEdge (clockBinary dataBinary : list Z) : list Z :=
  map (fun i => nth (i - 1) dataBinary 0) (risingIndices clockBinary).

End Spec.

(** What one iteration of each pair loop appends to its result list. *)
Module Emit.

Definition vn (pair : string) : list string :=
  if String.eqb pair "10" then ["0"]
  else if String.eqb pair "01" then ["1"]
  else [].

Definition xor (pair : string) : list string :=
  if String.eqb pair "01" || String.eqb pair "10" then ["1"] else ["0"].

Definition sr (pair : string) : list string :=
  if String.eqb pair "11" then ["1"]
  else if String.eqb pair "00" then ["0"]
  else [].

Definition cascade (pair : string) : list string :=
  let '(svn_bit, sxor_bit, sr_bit) := DiffProcessing.pairBits pair in
  DiffProcessing.appendIfSet
    (DiffProcessing.appendIfSet
       (DiffProcessing.appendIfSet [] svn_bit) sxor_bit) sr_bit.

(** The text of one pair of bits. *)
Definition pairText (p : bool * bool) : string :=
  Spec.bitString [fst p; snd p].

End Emit.

(** A sample of a binary signal. *)
Definition isBit (z : Z) : Prop := z = 0 \/ z = 1.

(** The counter is within the cap and the file holds one character per
    counted bit. *)
Definition withinBudget (totalSamples : Z) (w : Measurement.World) : Prop :=
  0 <= Measurement.samplesCollected w <= totalSamples
  /\ Z.of_nat (String.length (Measurement.outputFile w))
     = Measurement.samplesCollected w.

(** The states of the world an acquisition can reach: it starts with the
    counter at zero and an empty file, the driver delivers buffers to
    the callback, and the loop prints. *)
Inductive Reachable (callback : Measurement.Callback)
  : Measurement.World -> Prop :=
| reach_start w :
    Measurement.samplesCollected w = 0 ->
    Measurement.outputFile w = EmptyString ->
    Reachable callback w
| reach_deliver w d w' :
    Reachable callback w ->
    Measurement.deliver callback d w = Measurement.Ok w' ->
    Reachable callback w'
| reach_say w m :
    Reachable callback w ->
    Reachable callback (Measurement.say w m).

(** ** DiffProcessingTechniques.py: the file driver *)

Module Files.

(** [c.isspace()] on a character of the Latin-1 range: the ASCII
    whitespace 9-13 and 32, the separators 28-31, NEL (133) and the
    no-break space (160). *)
Definition isspace (c : ascii) : bool :=
  let n := nat_of_ascii c in
  (((9 <=? n) && (n <=? 13)) || ((28 <=? n) && (n <=? 32))
   || (n =? 133) || (n =? 160))%nat.

Fixpoint lstrip (s : string) : string :=
  match s with
  | EmptyString => EmptyString
  | String c rest => if isspace c then lstrip rest else s
  end.

Fixpoint rstrip (s : string) : string :=
  match s with
  | EmptyString => EmptyString
  | String c rest =>
      match rstrip rest with
      | EmptyString => if isspace c then EmptyString else String c EmptyString
      | kept => String c kept
      end
  end.

(** [s.strip()]: whitespace removed at both ends. *)
Definition strip (s : string) : string := rstrip (lstrip s).

(** The text files of the working directory, by name; [None] is a file
    that does not exist. *)
Definition FileSystem := string -> option string.

(** [open(name, 'w')] followed by [file.write(content)]. *)
Definition write (fs : FileSystem) (name content : string) : FileSystem :=
  fun other => if String.eqb other name then Some content else fs other.

(** How [processFile] ends: normally, with the files and the printed
    lines, or with the [FileNotFoundError] of [open(inputFileName, 'r')].
    Other failures of the operating system are not modelled. *)
Inductive Outcome :=
| Done (fs : FileSystem) (console : list string)
| FileNotFoundError (fs : FileSystem).

Definition processFile (inputFileName : string) (fs : FileSystem)
  : Outcome :=
  match fs inputFileName with
  | None => FileNotFoundError fs
  | Some text =>
      let data := strip text in
      let vn_result := DiffProcessing.vonNeumannProcessing data in
      let sxor_result := DiffProcessing.xorProcessing data in
      let sr_result := DiffProcessing.residualProcessing data in
      let cascaded_result := DiffProcessing.iteratedVonNeumann data in
      let fs := write fs "von_neumann_output.txt" vn_result in
      let fs := write fs "sxor_output.txt" sxor_result in
      let fs := write fs "sr_output.txt" sr_result in
      let fs := write fs "iterated_von_neumann.txt" cascaded_result in
      Done fs ["Processing complete. Three output files generated:";
               "- von_neumann_output.txt";
               "- sxor_output.txt";
               "- sr_output.txt";
               "- iterated_von_neumann.txt"]
  end.

(** The module-level call. *)
Definition inputFileName : string := "input.txt".

(** The names [processFile] writes to. *)
Definition outputNames : list string :=
  ["von_neumann_output.txt"; "sxor_output.txt"; "sr_output.txt";
   "iterated_von_neumann.txt"].

(** A text made of whitespace only. *)
Fixpoint allSpace (s : string) : bool :=
  match s with
  | EmptyString => true
  | String c rest => isspace c && allSpace rest
  end.

End Files.

(** ** More vocabulary *)

(** The text of [n] copies of one character. *)
Fixpoint repeatChar (c : ascii) (n : nat) : string :=
  match n with
  | O => EmptyString
  | S m => String c (repeatChar c m)
  end.

(** A text with every ['0'] and ['1'] exchanged. *)
Fixpoint flipText (s : string) : string :=
  match s with
  | EmptyString => EmptyString
  | String c rest =>
      String (if Ascii.eqb c "0" then "1"%char
              else if Ascii.eqb c "1" then "0"%char else c)
             (flipText rest)
  end.

Import DiffProcessing Spec.

(** ** Sanity checks of the embedding *)

Example vn_0110 : vonNeumannProcessing "0110" = "10".
Proof. reflexivity. Qed.

Example xor_0110 : xorProcessing "0110" = "11".
Proof. reflexivity. Qed.

Example sr_0110 : residualProcessing "0110" = "".
Proof. reflexivity. Qed.

Example cascade_0110 : iteratedVonNeumann "0110" = "1101".
Proof. reflexivity. Qed.

Example cascade_odd : iteratedVonNeumann "00111" = "0001".
Proof. reflexivity. Qed.

(** ** Python helpers *)

Section PyFacts.

Lemma append_empty_r (s : string) : (s ++ "")%string = s.
Proof. induction s as [|c s IH]; simpl; [reflexivity | now rewrite IH]. Qed.

Lemma append_assoc (a b c : string) :
  ((a ++ b) ++ c)%string = (a ++ (b ++ c))%string.
Proof. induction a as [|x a IH]; simpl; [reflexivity | now rewrite IH]. Qed.

Lemma length_append (a b : string) :
  String.length (a ++ b)%string = (String.length a + String.length b)%nat.
Proof. induction a as [|x a IH]; simpl; [reflexivity | now rewrite IH]. Qed.

Lemma join_cons (x : string) (xs : list string) :
  Py.join (x :: xs) = (x ++ Py.join xs)%string.
Proof.
  unfold Py.join. destruct xs as [|y ys]; simpl.
  - now rewrite append_empty_r.
  - reflexivity.
Qed.

Lemma join_app (xs ys : list string) :
  Py.join (xs ++ ys) = (Py.join xs ++ Py.join ys)%string.
Proof.
  induction xs as [|x xs IH].
  - reflexivity.
  - change ((x :: xs) ++ ys) with (x :: (xs ++ ys)).
    now rewrite !join_cons, IH, append_assoc.
Qed.

(** The pair loop visits the even positions below [len - 1]. *)
Lemma range_pairs (n : nat) :
  Py.range 0 (Z.of_nat n - 1) 2
  = map (fun k => 2 * Z.of_nat k) (seq 0 (n / 2)).
Proof.
  unfold Py.range.
  replace (Z.of_nat n - 1 - 0 + 2 - 1) with (Z.of_nat n) by lia.
  replace (Z.to_nat (Z.of_nat n / 2)) with (n / 2)%nat.
  - apply map_ext. intros k. lia.
  - change 2 with (Z.of_nat 2). rewrite <- Nat2Z.inj_div.
    now rewrite Nat2Z.id.
Qed.

(** Inside the string a two-character slice is a plain substring. *)
Lemma slice_pair (s : string) (i : nat) :
  (i + 2 <= String.length s)%nat ->
  Py.slice s (Z.of_nat i) (Z.of_nat i + 2) = substring i 2 s.
Proof.
  intros Hi. unfold Py.slice, Py.bound.
  destruct (Z.ltb_spec (Z.of_nat i) 0) as [?|_]; [lia|].
  destruct (Z.ltb_spec (Z.of_nat i + 2) 0) as [?|_]; [lia|].
  rewrite (Z.min_r _ (Z.of_nat i)) by lia.
  rewrite (Z.min_r _ (Z.of_nat i + 2)) by lia.
  rewrite !Z.max_r by lia.
  rewrite Nat2Z.id.
  replace (Z.to_nat (Z.of_nat i + 2 - Z.of_nat i)) with 2%nat by lia.
  reflexivity.
Qed.

(** A loop that only appends is a [flat_map]. *)
Lemma fold_append {A B : Type} (emit : B -> list A) (l : list B)
      (acc : list A) :
  fold_left (fun r i => r ++ emit i) l acc = acc ++ flat_map emit l.
Proof.
  revert acc. induction l as [|x l IH]; intros acc; simpl.
  - now rewrite app_nil_r.
  - now rewrite IH, app_assoc.
Qed.

Lemma fold_left_pointwise {A B : Type} (f g : A -> B -> A) (l : list B)
      (acc : A) :
  (forall a b, f a b = g a b) ->
  fold_left f l acc = fold_left g l acc.
Proof.
  intros Hfg. revert acc. induction l as [|x l IH]; intros acc; simpl.
  - reflexivity.
  - now rewrite Hfg, IH.
Qed.

End PyFacts.

(** Induction over a string two characters at a time. *)
Lemma string_pair_ind (P : string -> Prop) :
  P EmptyString ->
  (forall a, P (String a EmptyString)) ->
  (forall a b s, P s -> P (String a (String b s))) ->
  forall s, P s.
Proof.
  intros H0 H1 H2 s.
  assert (H : P s /\ forall a, P (String a s)).
  { induction s as [|c s [IHs IHc]].
    - split; [exact H0 | exact H1].
    - split; [apply IHc | intros a; apply H2, IHs]. }
  exact (proj1 H).
Qed.

Lemma div2_SS (n : nat) : (S (S n) / 2 = S (n / 2))%nat.
Proof.
  change (S (S n)) with (2 + n)%nat.
  replace (2 + n)%nat with (n + 1 * 2)%nat by lia.
  rewrite Nat.div_add by lia. lia.
Qed.

Lemma substring_pair_head (a b : ascii) (s : string) :
  substring 0 2 (String a (String b s)) = String a (String b EmptyString).
Proof. destruct s; reflexivity. Qed.

(** The slices taken by the pair loop are the pairs of the text. *)
Lemma loop_slices (data : string) :
  map (fun i => Py.slice data i (i + 2))
      (Py.range 0 (Py.len data - 1) 2)
  = pairStrings data.
Proof.
  unfold Py.len. rewrite range_pairs, map_map.
  induction data as [| a | a b s IH] using string_pair_ind.
  - reflexivity.
  - reflexivity.
  - cbn [String.length]. rewrite div2_SS.
    cbn [seq map pairStrings]. f_equal.
    { change (2 * Z.of_nat 0) with (Z.of_nat 0).
      rewrite slice_pair; [apply substring_pair_head | cbn [String.length]; lia]. }
    rewrite <- IH, <- seq_shift, map_map.
    apply map_ext_in. intros k Hk. apply in_seq in Hk.
    assert (Hlen : (2 * k + 2 <= String.length s)%nat).
    { pose proof (Nat.div_mod_eq (String.length s) 2).
      pose proof (Nat.mod_upper_bound (String.length s) 2). lia. }
    replace (2 * Z.of_nat (S k)) with (Z.of_nat (2 + 2 * k)) by lia.
    replace (2 * Z.of_nat k) with (Z.of_nat (2 * k)) by lia.
    rewrite (slice_pair _ (2 + 2 * k)) by (cbn [String.length]; lia).
    rewrite (slice_pair _ (2 * k)) by lia.
    reflexivity.
Qed.

(** Every pair loop of the file, for an arbitrary per-pair emission. *)
Lemma pair_loop (emit : string -> list string) (data : string) :
  fold_left (fun r i => r ++ emit (Py.slice data i (i + 2)))
            (Py.range 0 (Py.len data - 1) 2) []
  = flat_map emit (pairStrings data).
Proof.
  rewrite fold_append. cbn [app].
  rewrite <- loop_slices.
  rewrite !flat_map_concat_map, map_map. reflexivity.
Qed.

(** ** The four transforms as per-pair emissions *)

Section PairForm.

Lemma vonNeumannProcessing_pairs (data : string) :
  vonNeumannProcessing data = Py.join (flat_map Emit.vn (pairStrings data)).
Proof.
  unfold vonNeumannProcessing. rewrite <- pair_loop. f_equal.
  apply fold_left_pointwise. intros r i. unfold Emit.vn.
  destruct (String.eqb _ "10"); [reflexivity|].
  destruct (String.eqb _ "01"); [reflexivity|].
  now rewrite app_nil_r.
Qed.

Lemma xorProcessing_pairs (data : string) :
  xorProcessing data = Py.join (flat_map Emit.xor (pairStrings data)).
Proof.
  unfold xorProcessing. rewrite <- pair_loop. f_equal.
  apply fold_left_pointwise. intros r i. unfold Emit.xor.
  destruct (_ || _); reflexivity.
Qed.

Lemma residualProcessing_pairs (data : string) :
  residualProcessing data = Py.join (flat_map Emit.sr (pairStrings data)).
Proof.
  unfold residualProcessing. rewrite <- pair_loop. f_equal.
  apply fold_left_pointwise. intros r i. unfold Emit.sr.
  destruct (String.eqb _ "11"); [reflexivity|].
  destruct (String.eqb _ "00"); [reflexivity|].
  now rewrite app_nil_r.
Qed.

Lemma appendIfSet_app (acc : list string) (bit : option string) :
  appendIfSet acc bit = acc ++ appendIfSet [] bit.
Proof. destruct bit; simpl; [reflexivity | now rewrite app_nil_r]. Qed.

Lemma iteratedVonNeumann_pairs (data : string) :
  iteratedVonNeumann data
  = Py.join (flat_map Emit.cascade (pairStrings data)).
Proof.
  unfold iteratedVonNeumann. rewrite <- pair_loop. f_equal.
  apply fold_left_pointwise. intros r i. unfold Emit.cascade.
  destruct (pairBits _) as [[svn sxor] sr].
  rewrite (appendIfSet_app _ sr), (appendIfSet_app _ sxor),
    (appendIfSet_app _ svn).
  rewrite (appendIfSet_app (appendIfSet _ sxor) sr),
    (appendIfSet_app (appendIfSet [] svn) sxor).
  now rewrite !app_assoc.
Qed.

(** Unfolding over the first pair, for any per-pair emission. *)
Lemma join_pairs_step (emit : string -> list string) (a b : ascii)
      (rest : string) :
  Py.join (flat_map emit (pairStrings (String a (String b rest))))
  = (Py.join (emit (String a (String b EmptyString)))
     ++ Py.join (flat_map emit (pairStrings rest)))%string.
Proof. cbn [pairStrings flat_map]. apply join_app. Qed.

Lemma length_join_pairs (emit : string -> list string) (data : string) :
  String.length (Py.join (flat_map emit (pairStrings data)))
  = list_sum (map (fun p => String.length (Py.join (emit p)))
                  (pairStrings data)).
Proof.
  induction (pairStrings data) as [|p ps IH]; cbn [flat_map map list_sum].
  - reflexivity.
  - now rewrite join_app, length_append, IH.
Qed.

Lemma length_pairStrings (data : string) :
  List.length (pairStrings data) = (String.length data / 2)%nat.
Proof.
  induction data as [| a | a b s IH] using string_pair_ind.
  - reflexivity.
  - reflexivity.
  - cbn [pairStrings List.length String.length].
    now rewrite div2_SS, IH.
Qed.

End PairForm.

(** ** Bit strings *)

Section BitStrings.

Lemma bitString_app (xs ys : list bool) :
  bitString (xs ++ ys) = (bitString xs ++ bitString ys)%string.
Proof. induction xs as [|x xs IH]; simpl; [reflexivity | now rewrite IH]. Qed.

Lemma length_bitString (bs : list bool) :
  String.length (bitString bs) = List.length bs.
Proof. induction bs as [|b bs IH]; simpl; [reflexivity | now rewrite IH]. Qed.

Lemma isBitString_bitString (bs : list bool) :
  isBitString (bitString bs) = true.
Proof. induction bs as [|[] bs IH]; simpl; auto. Qed.

Lemma isBitString_inv (s : string) :
  isBitString s = true -> exists bs, s = bitString bs.
Proof.
  induction s as [|c s IH]; simpl; intros H.
  - now exists [].
  - apply andb_prop in H as [Hc Hs]. destruct (IH Hs) as [bs ->].
    apply orb_prop in Hc as [Hc|Hc]; apply Ascii.eqb_eq in Hc; subst c.
    + now exists (false :: bs).
    + now exists (true :: bs).
Qed.

Lemma pairStrings_bitString (bs : list bool) :
  pairStrings (bitString bs) = map Emit.pairText (pairsOf bs).
Proof.
  assert (H : forall n bs, (List.length bs <= n)%nat ->
              pairStrings (bitString bs) = map Emit.pairText (pairsOf bs)).
  { clear bs. induction n as [|n IH]; intros bs Hn.
    - destruct bs; [reflexivity | simpl in Hn; lia].
    - destruct bs as [|x [|y rest]]; try reflexivity.
      cbn [bitString pairStrings pairsOf map]. f_equal.
      apply IH. simpl in Hn. lia. }
  now apply (H (List.length bs)).
Qed.

(** A per-pair emission that agrees with a rule on the four bit pairs
    produces the rule applied to every pair. *)
Lemma join_pairs_bits (emit : string -> list string)
      (rule : bool * bool -> list bool) (bs : list bool) :
  (forall p, Py.join (emit (Emit.pairText p)) = bitString (rule p)) ->
  Py.join (flat_map emit (pairStrings (bitString bs)))
  = bitString (perPair rule bs).
Proof.
  intros Hrule. rewrite pairStrings_bitString. unfold perPair.
  induction (pairsOf bs) as [|p ps IH]; cbn [map flat_map].
  - reflexivity.
  - now rewrite join_app, bitString_app, Hrule, IH.
Qed.

Lemma vn_rule (p : bool * bool) :
  Py.join (Emit.vn (Emit.pairText p)) = bitString (svnRule p).
Proof. destruct p as [[] []]; reflexivity. Qed.

Lemma xor_rule (p : bool * bool) :
  Py.join (Emit.xor (Emit.pairText p)) = bitString (sxorRule p).
Proof. destruct p as [[] []]; reflexivity. Qed.

Lemma sr_rule (p : bool * bool) :
  Py.join (Emit.sr (Emit.pairText p)) = bitString (srRule p).
Proof. destruct p as [[] []]; reflexivity. Qed.

Lemma cascade_rule (p : bool * bool) :
  Py.join (Emit.cascade (Emit.pairText p)) = bitString (cascadeRule p).
Proof. destruct p as [[] []]; reflexivity. Qed.

Lemma vonNeumannProcessing_bits (bs : list bool) :
  vonNeumannProcessing (bitString bs) = bitString (perPair svnRule bs).
Proof.
  rewrite vonNeumannProcessing_pairs. apply join_pairs_bits, vn_rule.
Qed.

Lemma xorProcessing_bits (bs : list bool) :
  xorProcessing (bitString bs) = bitString (perPair sxorRule bs).
Proof. rewrite xorProcessing_pairs. apply join_pairs_bits, xor_rule. Qed.

Lemma residualProcessing_bits (bs : list bool) :
  residualProcessing (bitString bs) = bitString (perPair srRule bs).
Proof.
  rewrite residualProcessing_pairs. apply join_pairs_bits, sr_rule.
Qed.

Lemma iteratedVonNeumann_bits (bs : list bool) :
  iteratedVonNeumann (bitString bs) = bitString (perPair cascadeRule bs).
Proof.
  rewrite iteratedVonNeumann_pairs. apply join_pairs_bits, cascade_rule.
Qed.

Lemma length_pairsOf {A : Type} (l : list A) :
  List.length (pairsOf l) = (List.length l / 2)%nat.
Proof.
  assert (H : forall n (l : list A), (List.length l <= n)%nat ->
              List.length (pairsOf l) = (List.length l / 2)%nat).
  { clear l. induction n as [|n IH]; intros l Hn.
    - destruct l; [reflexivity | simpl in Hn; lia].
    - destruct l as [|x [|y rest]]; try reflexivity.
      cbn [pairsOf List.length]. rewrite div2_SS. f_equal.
      apply IH. simpl in Hn. lia. }
  now apply (H (List.length l)).
Qed.

Lemma length_perPair (rule : bool * bool -> list bool) (bs : list bool) :
  List.length (perPair rule bs)
  = list_sum (map (fun p => List.length (rule p)) (pairsOf bs)).
Proof.
  unfold perPair.
  induction (pairsOf bs) as [|p ps IH]; cbn [flat_map map list_sum].
  - reflexivity.
  - now rewrite length_app, IH.
Qed.

Lemma pairsOf_unpair {A : Type} (ps : list (A * A)) (tail : list A) :
  (List.length tail <= 1)%nat ->
  pairsOf (unpair ps ++ tail) = ps.
Proof.
  intros Ht. unfold unpair.
  induction ps as [|[x y] ps IH]; cbn [flat_map app pairsOf fst snd].
  - destruct tail as [|t [|u tail]]; try reflexivity. simpl in Ht. lia.
  - now rewrite IH.
Qed.

End BitStrings.

(** ** Pair by pair: each transform handles the first pair, then the rest *)

Section FirstPair.

Variables (a b : ascii) (rest : string).

Local Abbreviation pair := (String a (String b EmptyString)).

Lemma join_single_pair (emit : string -> list string) :
  Py.join (flat_map emit (pairStrings pair)) = Py.join (emit pair).
Proof.
  cbn [pairStrings flat_map]. now rewrite app_nil_r.
Qed.

Lemma vonNeumannProcessing_step :
  vonNeumannProcessing (String a (String b rest))
  = (vonNeumannProcessing pair ++ vonNeumannProcessing rest)%string.
Proof.
  rewrite !vonNeumannProcessing_pairs, join_single_pair.
  apply join_pairs_step.
Qed.

Lemma xorProcessing_step :
  xorProcessing (String a (String b rest))
  = (xorProcessing pair ++ xorProcessing rest)%string.
Proof.
  rewrite !xorProcessing_pairs, join_single_pair. apply join_pairs_step.
Qed.

Lemma residualProcessing_step :
  residualProcessing (String a (String b rest))
  = (residualProcessing pair ++ residualProcessing rest)%string.
Proof.
  rewrite !residualProcessing_pairs, join_single_pair.
  apply join_pairs_step.
Qed.

Lemma iteratedVonNeumann_step :
  iteratedVonNeumann (String a (String b rest))
  = (iteratedVonNeumann pair ++ iteratedVonNeumann rest)%string.
Proof.
  rewrite !iteratedVonNeumann_pairs, join_single_pair.
  apply join_pairs_step.
Qed.

End FirstPair.

(** ** The randomness extractor *)

Lemma cascade_rule_length (p : bool * bool) :
  List.length (cascadeRule p)
  = (List.length (sxorRule p) + List.length (svnRule p)
     + List.length (srRule p))%nat.
Proof. destruct p as [[] []]; reflexivity. Qed.

(** C5. For every input bit sequence the cascade is exactly as long as
    the XOR, Von Neumann and residual sequences together:
    [len(iteratedVonNeumann(d)) == len(xorProcessing(d))
     + len(vonNeumannProcessing(d)) + len(residualProcessing(d))]. *)
Theorem cascade_length_invariant (data : string) :
  isBitString data = true ->
  String.length (iteratedVonNeumann data)
  = (String.length (xorProcessing data)
     + String.length (vonNeumannProcessing data)
     + String.length (residualProcessing data))%nat.
Proof.
  intros Hbits. destruct (isBitString_inv data Hbits) as [bs ->].
  rewrite iteratedVonNeumann_bits, xorProcessing_bits,
    vonNeumannProcessing_bits, residualProcessing_bits.
  rewrite !length_bitString, !length_perPair.
  induction (pairsOf bs) as [|p ps IH]; cbn [map list_sum fold_right].
  - reflexivity.
  - unfold list_sum in IH. rewrite IH, cascade_rule_length. lia.
Qed.

Lemma cascade_length_invariant_witness :
  isBitString "0110100" = true
  /\ String.length (iteratedVonNeumann "0110100")
     = (String.length (xorProcessing "0110100")
        + String.length (vonNeumannProcessing "0110100")
        + String.length (residualProcessing "0110100"))%nat.
Proof.
  split; [reflexivity | apply (cascade_length_invariant "0110100")].
  reflexivity.
Defined.

(** C6. The cascade walks the pairs in input order and appends, for each
    pair, its svn-bit (if any), then its sxor-bit, then its sr-bit (if
    any) before it moves to the next pair; a pair contributes one or two
    bits and never both an svn and an sr bit; on ["0011"] the sequences
    are SVN [""], SXOR ["00"], SR ["01"] and the cascade is ["0001"]. *)
Theorem cascade_pair_order (bs : list bool) (p : bool * bool)
        (rest : string) :
  iteratedVonNeumann (bitString bs) = bitString (perPair cascadeRule bs)
  /\ iteratedVonNeumann (Emit.pairText p ++ rest)
     = (iteratedVonNeumann (Emit.pairText p)
        ++ iteratedVonNeumann rest)%string
  /\ iteratedVonNeumann (Emit.pairText p)
     = (vonNeumannProcessing (Emit.pairText p)
        ++ xorProcessing (Emit.pairText p)
        ++ residualProcessing (Emit.pairText p))%string
  /\ (String.length (iteratedVonNeumann (Emit.pairText p)) = 1%nat
      \/ String.length (iteratedVonNeumann (Emit.pairText p)) = 2%nat)
  /\ (vonNeumannProcessing (Emit.pairText p) = ""
      \/ residualProcessing (Emit.pairText p) = "")
  /\ vonNeumannProcessing "0011" = ""
  /\ xorProcessing "0011" = "00"
  /\ residualProcessing "0011" = "01"
  /\ iteratedVonNeumann "0011" = "0001".
Proof.
  split; [apply iteratedVonNeumann_bits|].
  split; [apply iteratedVonNeumann_step|].
  split; [destruct p as [[] []]; reflexivity|].
  split; [right; destruct p as [[] []]; reflexivity|].
  split; [destruct p as [[] []]; (left; reflexivity) || (right; reflexivity)|].
  repeat split; reflexivity.
Qed.

(** C7. On every input bit sequence [vonNeumannProcessing] maps the
    non-overlapping adjacent pairs, in order, by [10 -> 0], [01 -> 1],
    and nothing for [00] and [11]; a trailing unpaired bit of an
    odd-length input adds nothing to the output. *)
Theorem vonNeumann_pair_rule (bs : list bool) (ps : list (bool * bool))
        (last : bool) :
  vonNeumannProcessing (bitString bs) = bitString (perPair svnRule bs)
  /\ vonNeumannProcessing "10" = "0"
  /\ vonNeumannProcessing "01" = "1"
  /\ vonNeumannProcessing "00" = ""
  /\ vonNeumannProcessing "11" = ""
  /\ vonNeumannProcessing (bitString (unpair ps ++ [last]))
     = vonNeumannProcessing (bitString (unpair ps)).
Proof.
  split; [apply vonNeumannProcessing_bits|].
  repeat (split; [reflexivity|]).
  rewrite !vonNeumannProcessing_bits. unfold perPair.
  rewrite (pairsOf_unpair ps [last]) by (simpl; lia).
  rewrite <- (pairsOf_unpair ps []) at 1 by (simpl; lia).
  now rewrite app_nil_r.
Qed.

(** C8. On every input bit sequence of length [n], [xorProcessing] emits
    one bit per non-overlapping adjacent pair, ['1'] when the two bits
    differ and ['0'] when they agree, so its output has [n/2] bits for
    even [n] and [floor(n/2)] bits for odd [n]. *)
Theorem xor_one_bit_per_pair (bs : list bool) :
  xorProcessing (bitString bs) = bitString (perPair sxorRule bs)
  /\ String.length (xorProcessing (bitString bs))
     = (List.length bs / 2)%nat
  /\ (2 * String.length (xorProcessing (bitString bs))
      + List.length bs mod 2 = List.length bs)%nat.
Proof.
  assert (Hlen : String.length (xorProcessing (bitString bs))
                 = (List.length bs / 2)%nat).
  { rewrite xorProcessing_bits, length_bitString, length_perPair.
    rewrite <- length_pairsOf.
    induction (pairsOf bs) as [|p ps IH]; cbn [map list_sum fold_right List.length].
    - reflexivity.
    - fold (list_sum (map (fun q => List.length (sxorRule q)) ps)).
      rewrite IH. destruct p as [[] []]; reflexivity. }
  split; [apply xorProcessing_bits|]. split; [exact Hlen|].
  rewrite Hlen. pose proof (Nat.div_mod_eq (List.length bs) 2). lia.
Qed.

(** C9. On every input bit sequence of length [n], [residualProcessing]
    maps the pairs by [11 -> 1], [00 -> 0] and nothing for [01] and
    [10]; hence [len(SVN) + len(SR) <= n/2], and no pair contributes to
    both SVN and SR. *)
Theorem residual_pair_rule (bs : list bool) (p : bool * bool) :
  residualProcessing (bitString bs) = bitString (perPair srRule bs)
  /\ residualProcessing "11" = "1"
  /\ residualProcessing "00" = "0"
  /\ residualProcessing "01" = ""
  /\ residualProcessing "10" = ""
  /\ (String.length (vonNeumannProcessing (bitString bs))
      + String.length (residualProcessing (bitString bs))
      <= List.length bs / 2)%nat
  /\ (vonNeumannProcessing (Emit.pairText p) = ""
      \/ residualProcessing (Emit.pairText p) = "").
Proof.
  split; [apply residualProcessing_bits|].
  repeat (split; [reflexivity|]).
  split.
  - rewrite vonNeumannProcessing_bits, residualProcessing_bits.
    rewrite !length_bitString, !length_perPair, <- length_pairsOf.
    induction (pairsOf bs) as [|q qs IH]; cbn [map list_sum fold_right List.length].
    + lia.
    + assert (List.length (svnRule q) + List.length (srRule q) = 1)%nat
        by (destruct q as [[] []]; reflexivity).
      unfold list_sum in IH. lia.
  - destruct p as [[] []]; (left; reflexivity) || (right; reflexivity).
Qed.

(** ** Arbitrary text *)

Lemma xor_length_any (data : string) :
  String.length (xorProcessing data) = (String.length data / 2)%nat.
Proof.
  rewrite xorProcessing_pairs, length_join_pairs, <- length_pairStrings.
  induction (pairStrings data) as [|p ps IH];
    cbn [map list_sum fold_right List.length].
  - reflexivity.
  - unfold list_sum in IH. rewrite IH. unfold Emit.xor.
    destruct (_ || _); reflexivity.
Qed.

Lemma vn_sr_length_bits (data : string) :
  isBitString data = true ->
  (String.length (vonNeumannProcessing data)
   + String.length (residualProcessing data)
   = String.length data / 2)%nat.
Proof.
  intros Hbits. destruct (isBitString_inv data Hbits) as [bs ->].
  rewrite vonNeumannProcessing_bits, residualProcessing_bits.
  rewrite !length_bitString, !length_perPair, <- length_pairsOf.
  induction (pairsOf bs) as [|q qs IH];
    cbn [map list_sum fold_right List.length].
  - reflexivity.
  - assert (List.length (svnRule q) + List.length (srRule q) = 1)%nat
      by (destruct q as [[] []]; reflexivity).
    unfold list_sum in IH. lia.
Qed.

(** C10. For every input string, whatever its characters,
    [xorProcessing] emits ['0'] for a pair that is neither ['01'] nor
    ['10'], so its output has [floor(n/2)] characters;
    [vonNeumannProcessing] and [residualProcessing] emit nothing for a
    pair that is none of ['00'], ['01'], ['10'], ['11']; and on a bit
    string every pair contributes to exactly one of SVN and SR, so
    [len(SVN) + len(SR) == floor(n/2)]. *)
Theorem arbitrary_text_pairs (data : string) (a b : ascii) (rest : string)
        (p : bool * bool) :
  String.length (xorProcessing data) = (String.length data / 2)%nat
  /\ (String a (String b "") <> "01" ->
      String a (String b "") <> "10" ->
      xorProcessing (String a (String b rest))
      = ("0" ++ xorProcessing rest)%string)
  /\ (String a (String b "") <> "10" ->
      String a (String b "") <> "01" ->
      vonNeumannProcessing (String a (String b rest))
      = vonNeumannProcessing rest)
  /\ (String a (String b "") <> "11" ->
      String a (String b "") <> "00" ->
      residualProcessing (String a (String b rest))
      = residualProcessing rest)
  /\ (String.length (vonNeumannProcessing (Emit.pairText p))
      + String.length (residualProcessing (Emit.pairText p)) = 1)%nat
  /\ (isBitString data = true ->
      (String.length (vonNeumannProcessing data)
       + String.length (residualProcessing data)
       = String.length data / 2)%nat).
Proof.
  split; [apply xor_length_any|].
  split.
  { intros H01 H10. rewrite xorProcessing_step. f_equal.
    rewrite xorProcessing_pairs, join_single_pair. unfold Emit.xor.
    apply String.eqb_neq in H01, H10. now rewrite H01, H10. }
  split.
  { intros H10 H01. rewrite vonNeumannProcessing_step.
    rewrite (vonNeumannProcessing_pairs (String a _)), join_single_pair.
    unfold Emit.vn. apply String.eqb_neq in H01, H10.
    now rewrite H01, H10. }
  split.
  { intros H11 H00. rewrite residualProcessing_step.
    rewrite (residualProcessing_pairs (String a _)), join_single_pair.
    unfold Emit.sr. apply String.eqb_neq in H11, H00.
    now rewrite H11, H00. }
  split; [destruct p as [[] []]; reflexivity|].
  apply vn_sr_length_bits.
Qed.

Lemma arbitrary_text_pairs_witness :
  xorProcessing "ab01" = "01"
  /\ vonNeumannProcessing "ab01" = "1"
  /\ residualProcessing "2x11" = "1"
  /\ (String.length (vonNeumannProcessing "011100")
      + String.length (residualProcessing "011100") = 3)%nat.
Proof.
  pose proof (arbitrary_text_pairs "011100" "a" "b" "01" (true, false))
    as (_ & Hxor & Hvn & _ & _ & Hlen).
  pose proof (arbitrary_text_pairs "" "2" "x" "11" (true, false))
    as (_ & _ & _ & Hsr & _ & _).
  split; [rewrite Hxor by discriminate; reflexivity|].
  split; [rewrite Hvn by discriminate; reflexivity|].
  split; [rewrite Hsr by discriminate; reflexivity|].
  rewrite Hlen by reflexivity. reflexivity.
Defined.

(** ** The edge sampler *)

Import Measurement.

Section EdgeSampler.

Lemma whereFrom_spec (mask : list bool) (j : Z) :
  Np.whereFrom j mask
  = map (fun k => j + Z.of_nat k)
        (filter (fun k => nth k mask false) (seq 0 (List.length mask))).
Proof.
  revert j. induction mask as [|b mask IH]; intros j.
  - reflexivity.
  - cbn [Np.whereFrom List.length seq filter nth].
    rewrite <- seq_shift, filter_map_swap, IH.
    assert (Htail : map (fun k => j + 1 + Z.of_nat k)
                        (filter (fun k => nth k mask false)
                                (seq 0 (List.length mask)))
                    = map (fun k => j + Z.of_nat k)
                          (map S (filter (fun k => nth k mask false)
                                         (seq 0 (List.length mask))))).
    { rewrite map_map. apply map_ext. intros k. lia. }
    rewrite Htail. destruct b; cbn [map].
    + f_equal. lia.
    + reflexivity.
Qed.

Lemma length_diff (a : list Z) :
  List.length (Np.diff a) = (List.length a - 1)%nat.
Proof.
  induction a as [|x a IH]; [reflexivity|].
  destruct a as [|y a]; [reflexivity|].
  cbn [Np.diff List.length] in *. lia.
Qed.

Lemma nth_diff (a : list Z) (k : nat) :
  (S k < List.length a)%nat ->
  nth k (Np.diff a) 0 = nth (S k) a 0 - nth k a 0.
Proof.
  revert k. induction a as [|x a IH]; intros k Hk; [simpl in Hk; lia|].
  destruct a as [|y a]; [simpl in Hk; lia|].
  destruct k as [|k].
  - reflexivity.
  - change (Np.diff (x :: y :: a)) with ((y - x) :: Np.diff (y :: a)).
    cbn [nth]. rewrite IH by (simpl in Hk |- *; lia). reflexivity.
Qed.

(** [risingEdges] holds, for every rising index [i], the position
    [i - 1]. *)
Lemma risingEdgesOf_spec (clkBinary : list Z) :
  risingEdgesOf clkBinary
  = map (fun i => Z.of_nat (i - 1)) (risingIndices clkBinary).
Proof.
  unfold risingEdgesOf, Np.where_, risingIndices.
  rewrite whereFrom_spec, length_map, length_diff.
  rewrite <- seq_shift, filter_map_swap, map_map.
  rewrite (filter_ext_in
             (fun k => nth k (map (fun d => d =? 1) (Np.diff clkBinary))
                           false)
             (fun k => nth (S k) clkBinary 0
                       - nth (S k - 1) clkBinary 0 =? 1)).
  - apply map_ext. intros k. f_equal. lia.
  - intros k Hk. apply in_seq in Hk.
    change false with ((fun d => d =? 1) 0). rewrite map_nth.
    rewrite nth_diff by lia. now replace (S k - 1)%nat with k by lia.
Qed.

Lemma in_risingIndices (clkBinary : list Z) (i : nat) :
  In i (risingIndices clkBinary) ->
  (1 <= i < List.length clkBinary)%nat
  /\ nth i clkBinary 0 - nth (i - 1) clkBinary 0 = 1.
Proof.
  unfold risingIndices. intros Hi. apply filter_In in Hi as [Hi Hedge].
  apply in_seq in Hi. split; [lia | now apply Z.eqb_eq].
Qed.

Lemma index_in_range (a : list Z) (ks : list nat) :
  (forall k, In k ks -> (k < List.length a)%nat) ->
  Np.index a (map Z.of_nat ks) = Ok (map (fun k => nth k a 0) ks).
Proof.
  induction ks as [|k ks IH]; intros Hks; [reflexivity|].
  cbn [map Np.index]. rewrite IH by (intros; apply Hks; now right).
  assert (Hk : (k < List.length a)%nat) by (apply Hks; now left).
  unfold Np.item.
  destruct (Z.leb_spec 0 (Z.of_nat k)); [|lia].
  destruct (Z.ltb_spec (Z.of_nat k) (Z.of_nat (List.length a))); [|lia].
  cbn [andb]. now rewrite Nat2Z.id.
Qed.

Lemma sampleOnEdges_spec (clkBinary dataBinary : list Z) :
  List.length clkBinary = List.length dataBinary ->
  sampleOnEdges clkBinary dataBinary
  = Ok (sampleBeforeEdge clkBinary dataBinary).
Proof.
  intros Hlen. unfold sampleOnEdges, sampleBeforeEdge.
  rewrite risingEdgesOf_spec, <- (map_map (fun i => (i - 1)%nat) Z.of_nat).
  rewrite index_in_range.
  - now rewrite map_map.
  - intros k Hk. apply in_map_iff in Hk as (i & <- & Hi).
    apply in_risingIndices in Hi. lia.
Qed.

End EdgeSampler.

Example edges_0101 : risingEdgesOf [0; 1; 0; 1] = [0; 2].
Proof. reflexivity. Qed.

Example rising_0101 : risingIndices [0; 1; 0; 1] = [1%nat; 3%nat].
Proof. reflexivity. Qed.

Example sample_0101 : sampleOnEdges [0; 1; 0; 1] [1; 0; 1; 0] = Ok [1; 1].
Proof. reflexivity. Qed.

Example toggling_batch_binary :
  clkBinaryOf THRESHOLD_CLOCK VOLTAGE_RANGE 4 togglingBatch = [0; 1; 0; 1]
  /\ dataBinaryOf THRESHOLD_DATA VOLTAGE_RANGE true 4 togglingBatch
     = [1; 0; 1; 0].
Proof. split; reflexivity. Qed.

(** C1, as stated, fails.  On the clock binary signal [0,1,0,1] and the
    data binary signal [1,0,1,0] the rising indices are 1 and 3 and the
    data bits there are [0,0], but the callback extracts [1,1]: the bits
    at positions 0 and 2. *)
Lemma edge_sampler_not_at_rising_index :
  clkBinaryOf THRESHOLD_CLOCK VOLTAGE_RANGE 4 togglingBatch = [0; 1; 0; 1]
  /\ dataBinaryOf THRESHOLD_DATA VOLTAGE_RANGE true 4 togglingBatch
     = [1; 0; 1; 0]
  /\ risingIndices [0; 1; 0; 1] = [1%nat; 3%nat]
  /\ sampleAtEdge [0; 1; 0; 1] [1; 0; 1; 0] = [0; 0]
  /\ sampleOnEdges [0; 1; 0; 1] [1; 0; 1; 0] = Ok [1; 1]
  /\ sampleOnEdges [0; 1; 0; 1] [1; 0; 1; 0]
     <> Ok (sampleAtEdge [0; 1; 0; 1] [1; 0; 1; 0])
  /\ streamingCallback 4 0 THRESHOLD_CLOCK THRESHOLD_DATA VOLTAGE_RANGE
       TOTAL_SAMPLES "time" true togglingBatch
     = Ok {| bufferClock := [0; 32767; 0; 32767];
             bufferData := [32767; 0; 32767; 0];
             samplesCollected := 2;
             outputFile := "11";
             console := [] |}.
Proof.
  repeat (split; [reflexivity|]).
  split; [|reflexivity].
  vm_compute. discriminate.
Qed.

(** C1, amended.  For every non-overflow batch whose two binary signals
    have the same length, the sampler's output is [dataBinary[i-1]] for
    every index [i], [1 <= i < n], with
    [clockBinary[i] - clockBinary[i-1] == 1], in ascending order of [i],
    exactly one output bit per detected rising edge; outside "samples"
    mode these bits are what the callback appends to the file and adds
    to [samplesCollected]. *)
Theorem edge_sampler_before_rising_index
        (noOfSamples : Z) (thresholdClock thresholdData VOLTAGE_RANGE : Q)
        (totalSamples : Z) (captureMode : string) (useX10Probe : bool)
        (w : World) :
  let clkBinary := clkBinaryOf thresholdClock VOLTAGE_RANGE noOfSamples w in
  let dataBinary :=
    dataBinaryOf thresholdData VOLTAGE_RANGE useX10Probe noOfSamples w in
  List.length clkBinary = List.length dataBinary ->
  sampleOnEdges clkBinary dataBinary
  = Ok (sampleBeforeEdge clkBinary dataBinary)
  /\ List.length (sampleBeforeEdge clkBinary dataBinary)
     = List.length (risingIndices clkBinary)
  /\ (captureMode <> "samples" ->
      streamingCallback noOfSamples 0 thresholdClock thresholdData
        VOLTAGE_RANGE totalSamples captureMode useX10Probe w
      = Ok {| bufferClock := bufferClock w;
              bufferData := bufferData w;
              samplesCollected :=
                samplesCollected w
                + Z.of_nat (List.length
                              (sampleBeforeEdge clkBinary dataBinary));
              outputFile :=
                (outputFile w
                 ++ Py.join (map Py.str
                               (sampleBeforeEdge clkBinary dataBinary)))%string;
              console := console w |}).
Proof.
  intros clkBinary dataBinary Hlen.
  pose proof (sampleOnEdges_spec clkBinary dataBinary Hlen) as Hsample.
  split; [exact Hsample|].
  split; [unfold sampleBeforeEdge; apply length_map|].
  intros Hmode. unfold streamingCallback. cbn [Z.eqb].
  fold clkBinary. fold dataBinary. rewrite Hsample.
  apply String.eqb_neq in Hmode. now rewrite Hmode.
Qed.

Lemma edge_sampler_before_rising_index_witness :
  sampleOnEdges
    (clkBinaryOf THRESHOLD_CLOCK VOLTAGE_RANGE 4 togglingBatch)
    (dataBinaryOf THRESHOLD_DATA VOLTAGE_RANGE true 4 togglingBatch)
  = Ok [1; 1].
Proof.
  destruct (edge_sampler_before_rising_index 4 THRESHOLD_CLOCK THRESHOLD_DATA
              VOLTAGE_RANGE TOTAL_SAMPLES "time" true togglingBatch)
    as (H & _ & _).
  - reflexivity.
  - rewrite H. reflexivity.
Defined.

(** ** The sample budget *)

Section Budget.

Lemma astypeInt_bit (b : bool) : isBit (Np.astypeInt b).
Proof. destruct b; [right | left]; reflexivity. Qed.

Lemma dataBinaryOf_bits (thresholdData VOLTAGE_RANGE : Q)
      (useX10Probe : bool) (noOfSamples : Z) (w : World) :
  Forall isBit
         (dataBinaryOf thresholdData VOLTAGE_RANGE useX10Probe
                       noOfSamples w).
Proof.
  unfold dataBinaryOf. apply Forall_forall. intros x Hx.
  apply in_map_iff in Hx as (v & <- & _). apply astypeInt_bit.
Qed.

Lemma item_bit (a : list Z) (j x : Z) :
  Forall isBit a -> Np.item a j = Ok x -> isBit x.
Proof.
  intros Ha. unfold Np.item.
  assert (Hnth : forall k, isBit (nth k a 0)).
  { intros k. destruct (nth_in_or_default k a 0) as [Hin | Hd]; [|rewrite Hd].
    - revert Hin. now apply Forall_forall.
    - now left. }
  destruct (_ && _); [intros [= <-]; apply Hnth|].
  destruct (_ && _); [intros [= <-]; apply Hnth | discriminate].
Qed.

Lemma index_bits (a idx xs : list Z) :
  Forall isBit a -> Np.index a idx = Ok xs -> Forall isBit xs.
Proof.
  intros Ha. revert xs. induction idx as [|j idx IH]; intros xs.
  - intros [= <-]. constructor.
  - cbn [Np.index]. destruct (Np.item a j) as [x|e] eqn:Hx; [|discriminate].
    destruct (Np.index a idx) as [ys|e]; [|discriminate].
    intros [= <-]. constructor; [eapply item_bit; eauto | now apply IH].
Qed.

Lemma take_Forall {A : Type} (P : A -> Prop) (l : list A) (k : Z) :
  Forall P l -> Forall P (Py.take l k).
Proof.
  unfold Py.take. generalize (Z.to_nat (Py.bound (Z.of_nat (List.length l)) k)).
  intros n Hl. revert n. induction Hl as [|x l Hx Hl IH]; intros [|n];
    cbn [firstn]; constructor; auto.
Qed.

Lemma length_take_le {A : Type} (l : list A) (k : Z) :
  0 <= k -> Z.of_nat (List.length (Py.take l k)) <= k.
Proof.
  intros Hk. unfold Py.take, Py.bound. rewrite length_firstn.
  destruct (Z.ltb_spec k 0); lia.
Qed.

Lemma length_join_bits (bits : list Z) :
  Forall isBit bits ->
  String.length (Py.join (map Py.str bits)) = List.length bits.
Proof.
  induction 1 as [|x bits Hx _ IH]; [reflexivity|].
  cbn [map List.length]. rewrite join_cons, length_append, IH.
  destruct Hx as [Hx | Hx]; rewrite Hx; reflexivity.
Qed.

Variables (thresholdClock thresholdData VOLTAGE_RANGE : Q).
Variables (totalSamples : Z) (useX10Probe : bool).

Local Abbreviation callback :=
  (samplesCallback thresholdClock thresholdData VOLTAGE_RANGE totalSamples
                   useX10Probe).

Lemma callback_keeps_budget (noOfSamples overflow : Z) (w w' : World) :
  withinBudget totalSamples w ->
  callback noOfSamples overflow w = Ok w' ->
  withinBudget totalSamples w'
  /\ 0 <= samplesCollected w' - samplesCollected w
       <= totalSamples - samplesCollected w.
Proof.
  intros [Hcount Hfile]. unfold samplesCallback, streamingCallback.
  destruct (overflow =? 0).
  - destruct (sampleOnEdges _ _) as [sampledBits|e] eqn:Hs; [|discriminate].
    cbn [String.eqb Ascii.eqb Bool.eqb andb]. intros [= <-].
    cbn [samplesCollected outputFile].
    set (kept := Py.take sampledBits (totalSamples - samplesCollected w)).
    assert (Hkept : Z.of_nat (List.length kept)
                    <= totalSamples - samplesCollected w)
      by (apply length_take_le; lia).
    assert (Hbits : Forall isBit kept).
    { apply take_Forall. eapply index_bits; [|exact Hs].
      apply dataBinaryOf_bits. }
    unfold withinBudget. cbn [samplesCollected outputFile].
    rewrite length_append, (length_join_bits kept Hbits). lia.
  - intros [= <-]. unfold withinBudget. cbn [samplesCollected outputFile].
    lia.
Qed.

Lemma deliver_keeps_budget (d : Delivery) (w w' : World) :
  withinBudget totalSamples w ->
  deliver callback d w = Ok w' ->
  withinBudget totalSamples w'
  /\ 0 <= samplesCollected w' - samplesCollected w
       <= totalSamples - samplesCollected w.
Proof.
  unfold deliver. intros Hw Hd.
  apply (callback_keeps_budget _ _ (loadBuffers d w) w' Hw Hd).
Qed.

Lemma reachable_within_budget (w : World) :
  0 <= totalSamples -> Reachable callback w -> withinBudget totalSamples w.
Proof.
  intros Hcap. induction 1 as [w H0 Hfile | w d w' _ IH Hd | w m _ IH].
  - unfold withinBudget. rewrite H0, Hfile. cbn. lia.
  - now apply (deliver_keeps_budget d w w').
  - exact IH.
Qed.

End Budget.

(** ** The polling loop *)

Section Loop.

Variables (mode : string) (durationSeconds : Q) (totalSamples : Z).
Variables (no_signal_duration_threshold : Q).
Variables (statusInterval : Z) (timeStatusInterval : Q).

Local Abbreviation check :=
  (stoppingConditions mode durationSeconds totalSamples
     no_signal_duration_threshold statusInterval timeStatusInterval).

(** The stopping conditions only print. *)
Lemma stoppingConditions_world (timeAtElapsed timeAtCheck : Q)
      (vars : LoopVars) (w : World) :
  fst (check timeAtElapsed timeAtCheck vars w) = w
  \/ exists m, fst (check timeAtElapsed timeAtCheck vars w) = say w m.
Proof.
  unfold stoppingConditions.
  repeat match goal with
         | |- context [if ?c then _ else _] => destruct c
         end; cbn [fst]; eauto.
Qed.

(** Their verdict reads the counter and the loop variables, not the
    console. *)
Lemma stoppingConditions_say (timeAtElapsed timeAtCheck : Q)
      (vars : LoopVars) (w : World) (m : Message) :
  snd (check timeAtElapsed timeAtCheck vars (say w m))
  = snd (check timeAtElapsed timeAtCheck vars w).
Proof.
  unfold stoppingConditions. cbn [say samplesCollected].
  repeat match goal with
         | |- context [if ?c then _ else _] => destruct c
         end; reflexivity.
Qed.

(** In the two capture modes the loop leaves exactly when the target
    of the mode is met. *)
Lemma stoppingConditions_targets (timeAtElapsed timeAtCheck : Q)
      (vars : LoopVars) (w : World) :
  (mode = "time" ->
   snd (check timeAtElapsed timeAtCheck vars w) = Break
   <-> Qle_bool durationSeconds (timeAtElapsed - startTime vars) = true)
  /\ (mode = "samples" ->
      snd (check timeAtElapsed timeAtCheck vars w) = Break
      <-> (totalSamples <=? samplesCollected w) = true).
Proof.
  unfold stoppingConditions. split; intros ->.
  - cbn [String.eqb Ascii.eqb Bool.eqb andb].
    destruct (Qle_bool durationSeconds _); [easy|].
    destruct (Qle_bool timeStatusInterval _); easy.
  - cbn [String.eqb Ascii.eqb Bool.eqb andb].
    destruct (totalSamples <=? _); [easy|].
    destruct (_ + _ <=? _); easy.
Qed.

Variable callback : Callback.

Lemma poll_reachable (deliveries : list Delivery) (w w' : World) :
  Reachable callback w ->
  getStreamingLatestValues callback deliveries w = Ok w' ->
  Reachable callback w'.
Proof.
  revert w. induction deliveries as [|d ds IH]; intros w Hw.
  - now intros [= <-].
  - cbn [getStreamingLatestValues].
    destruct (deliver callback d w) as [w1|e] eqn:Hd; [|discriminate].
    apply IH. now apply (reach_deliver callback w d w1).
Qed.

Lemma loopIteration_reachable (t : Tick) (vars : LoopVars)
      (w w' : World) (flow : Flow) :
  Reachable callback w ->
  loopIteration callback mode durationSeconds totalSamples
    no_signal_duration_threshold statusInterval timeStatusInterval
    t vars w = Ok (w', flow) ->
  Reachable callback w'.
Proof.
  intros Hw. unfold loopIteration.
  destruct (getStreamingLatestValues callback (poll t) w) as [w1|e] eqn:Hp;
    [|discriminate].
  pose proof (poll_reachable _ _ _ Hw Hp) as Hw1.
  intros [= Hres].
  destruct (stoppingConditions_world (timeAtElapsed t) (timeAtCheck t)
              (refreshSignal (timeAtSignal t) vars w1) w1) as [H|[m H]];
    rewrite Hres in H; cbn [fst] in H; subst w'.
  - exact Hw1.
  - now apply reach_say.
Qed.

Lemma whileTrue_reachable (ticks : list Tick) (vars : LoopVars)
      (w w' : World) (left : option LoopVars) :
  Reachable callback w ->
  whileTrue callback mode durationSeconds totalSamples
    no_signal_duration_threshold statusInterval timeStatusInterval
    ticks vars w = Ok (w', left) ->
  Reachable callback w'.
Proof.
  revert vars w. induction ticks as [|t ticks IH]; intros vars w Hw.
  - now intros [= <- _].
  - cbn [whileTrue].
    destruct (loopIteration _ _ _ _ _ _ _ t vars w) as [[w1 flow]|e] eqn:Hit;
      [|discriminate].
    pose proof (loopIteration_reachable _ _ _ _ _ Hw Hit) as Hw1.
    destruct flow as [vars1|].
    + now apply IH.
    + now intros [= <- _].
Qed.

(** Every state of a [collectData] run that starts with the counter at
    zero is a reachable state of the acquisition. *)
Lemma collectData_reachable (timeAtStart timeAtFirstSignal timeAtEnd : Q)
      (ticks : list Tick) (w w' : World) (left : option LoopVars) :
  samplesCollected w = 0 ->
  collectData callback mode durationSeconds totalSamples
    no_signal_duration_threshold statusInterval timeStatusInterval
    timeAtStart timeAtFirstSignal timeAtEnd ticks w = Ok (w', left) ->
  Reachable callback w'.
Proof.
  intros H0. unfold collectData.
  destruct (whileTrue _ _ _ _ _ _ _ ticks _ _) as [[w1 l1]|e] eqn:Hrun;
    [|discriminate].
  assert (Hw1 : Reachable callback w1).
  { eapply whileTrue_reachable; [|exact Hrun].
    now apply reach_start. }
  destruct l1; intros [= <- _]; [exact Hw1 | now apply reach_say].
Qed.

End Loop.

(** ** The acquisition session *)

(** C3. In "samples" mode, at every point of the session the bits
    collected, and with them the length of the written bit sequence,
    never exceed the cap [totalSamples]: the new bits of each batch are
    cut to at most [totalSamples - samplesCollected] before they are
    appended. *)
Theorem sample_cap_never_exceeded
        (thresholdClock thresholdData VOLTAGE_RANGE : Q)
        (totalSamples : Z) (useX10Probe : bool)
        (w : World) (d : Delivery) (w' : World) :
  0 <= totalSamples ->
  Reachable (samplesCallback thresholdClock thresholdData VOLTAGE_RANGE
                             totalSamples useX10Probe) w ->
  samplesCollected w <= totalSamples
  /\ Z.of_nat (String.length (outputFile w)) = samplesCollected w
  /\ (deliver (samplesCallback thresholdClock thresholdData VOLTAGE_RANGE
                               totalSamples useX10Probe) d w = Ok w' ->
      0 <= samplesCollected w' - samplesCollected w
        <= totalSamples - samplesCollected w
      /\ samplesCollected w' <= totalSamples
      /\ Z.of_nat (String.length (outputFile w')) = samplesCollected w').
Proof.
  intros Hcap Hreach.
  pose proof (reachable_within_budget _ _ _ _ _ w Hcap Hreach) as Hw.
  destruct Hw as [Hcount Hfile].
  split; [lia|]. split; [exact Hfile|].
  intros Hd.
  destruct (deliver_keeps_budget _ _ _ _ _ d w w' (conj Hcount Hfile) Hd)
    as [[Hcount' Hfile'] Hnew].
  repeat split; first [lia | exact Hfile'].
Qed.

Lemma sample_cap_never_exceeded_witness :
  samplesCollected
    {| bufferClock := [0; 32767; 0; 32767];
       bufferData := [32767; 0; 32767; 0];
       samplesCollected := 1;
       outputFile := "1";
       console := [] |} <= 1
  /\ Z.of_nat (String.length "1") = 1.
Proof.
  assert (Hcap : 0 <= 1) by lia.
  assert (Hreach :
            Reachable (samplesCallback THRESHOLD_CLOCK THRESHOLD_DATA
                                       VOLTAGE_RANGE 1 true)
                      {| bufferClock := [0; 32767; 0; 32767];
                         bufferData := [32767; 0; 32767; 0];
                         samplesCollected := 1;
                         outputFile := "1";
                         console := [] |}).
  { apply (reach_deliver _ togglingBatch
             (mkDelivery [0; 32767; 0; 32767] [32767; 0; 32767; 0] 4 0)).
    - apply reach_start; reflexivity.
    - reflexivity. }
  destruct (sample_cap_never_exceeded THRESHOLD_CLOCK THRESHOLD_DATA
              VOLTAGE_RANGE 1 true _
              (mkDelivery [0; 32767; 0; 32767] [32767; 0; 32767; 0] 4 0)
              togglingBatch Hcap Hreach) as (Hle & Hlen & _).
  split; [exact Hle | exact Hlen].
Defined.

(** C4. A batch whose overflow flag is set adds no bit to the output and
    leaves [samplesCollected] unchanged, the callback returns without an
    exception, and the loop iteration that received it reaches the same
    verdict as an iteration that received nothing: the overflow alone
    does not end the session. *)
Theorem overflow_batch_dropped
        (thresholdClock thresholdData VOLTAGE_RANGE : Q)
        (callbackTotal : Z) (captureMode : string) (useX10Probe : bool)
        (d : Delivery) (w : World)
        (mode : string) (durationSeconds : Q) (totalSamples : Z)
        (no_signal_duration_threshold : Q)
        (statusInterval : Z) (timeStatusInterval : Q)
        (tSignal tElapsed tCheck : Q) (vars : LoopVars) :
  overflow d <> 0 ->
  let callback : Callback :=
    fun noOfSamples overflow =>
      streamingCallback noOfSamples overflow thresholdClock thresholdData
        VOLTAGE_RANGE callbackTotal captureMode useX10Probe in
  streamingCallback (noOfSamples d) (overflow d) thresholdClock
    thresholdData VOLTAGE_RANGE callbackTotal captureMode useX10Probe w
  = Ok (say w OverflowSkipped)
  /\ samplesCollected (say w OverflowSkipped) = samplesCollected w
  /\ outputFile (say w OverflowSkipped) = outputFile w
  /\ exists wWith wWithout flow,
      loopIteration callback mode durationSeconds totalSamples
        no_signal_duration_threshold statusInterval timeStatusInterval
        (mkTick [d] tSignal tElapsed tCheck) vars w
      = Ok (wWith, flow)
      /\ loopIteration callback mode durationSeconds totalSamples
           no_signal_duration_threshold statusInterval timeStatusInterval
           (mkTick [] tSignal tElapsed tCheck) vars
           (loadBuffers d w)
         = Ok (wWithout, flow)
      /\ samplesCollected wWith = samplesCollected w
      /\ outputFile wWith = outputFile w.
Proof.
  intros Hov callback.
  assert (Hcb : forall w0,
             streamingCallback (noOfSamples d) (overflow d) thresholdClock
               thresholdData VOLTAGE_RANGE callbackTotal captureMode
               useX10Probe w0 = Ok (say w0 OverflowSkipped)).
  { intros w0. unfold streamingCallback.
    apply Z.eqb_neq in Hov. now rewrite Hov. }
  split; [apply Hcb|]. split; [reflexivity|]. split; [reflexivity|].
  unfold loopIteration.
  cbn [poll getStreamingLatestValues Measurement.timeAtSignal Measurement.timeAtElapsed Measurement.timeAtCheck].
  unfold deliver, callback. rewrite Hcb.
  set (loaded := loadBuffers d w).
  set (vars' := refreshSignal tSignal vars loaded).
  assert (Hvars : refreshSignal tSignal vars (say loaded OverflowSkipped)
                  = vars') by reflexivity.
  rewrite Hvars.
  pose proof (stoppingConditions_say mode durationSeconds totalSamples
                no_signal_duration_threshold statusInterval
                timeStatusInterval tElapsed tCheck vars' loaded
                OverflowSkipped) as Hflow.
  pose proof (stoppingConditions_world mode durationSeconds totalSamples
                no_signal_duration_threshold statusInterval
                timeStatusInterval tElapsed tCheck vars'
                (say loaded OverflowSkipped)) as Hworld.
  destruct (stoppingConditions mode durationSeconds totalSamples
              no_signal_duration_threshold statusInterval timeStatusInterval
              tElapsed tCheck vars' (say loaded OverflowSkipped))
    as [wWith flow].
  destruct (stoppingConditions mode durationSeconds totalSamples
              no_signal_duration_threshold statusInterval timeStatusInterval
              tElapsed tCheck vars' loaded)
    as [wWithout flow'].
  cbn [fst snd] in Hflow, Hworld. subst flow'.
  exists wWith, wWithout, flow.
  split; [reflexivity|]. split; [reflexivity|].
  destruct Hworld as [-> | [m ->]]; split; reflexivity.
Qed.

Lemma overflow_batch_dropped_witness :
  streamingCallback 4 1 THRESHOLD_CLOCK THRESHOLD_DATA VOLTAGE_RANGE
    TOTAL_SAMPLES "samples" true togglingBatch
  = Ok (say togglingBatch OverflowSkipped).
Proof.
  assert (Hov : overflow
                  (mkDelivery [0; 32767; 0; 32767] [32767; 0; 32767; 0] 4 1)
                <> 0) by (cbn; discriminate).
  exact (proj1 (overflow_batch_dropped THRESHOLD_CLOCK THRESHOLD_DATA
                  VOLTAGE_RANGE TOTAL_SAMPLES "samples" true
                  (mkDelivery [0; 32767; 0; 32767] [32767; 0; 32767; 0] 4 1)
                  togglingBatch "samples" DURATION_SECONDS TOTAL_SAMPLES
                  3 10000 5 0 0 0 (initialVars 0 0) Hov)).
Defined.

(** C2 does not hold of the code.  With a silent source (no delivery,
    zeroed buffers, last signal 100 s ago against a threshold of 3 s)
    the loop keeps running in "samples" mode for any number of
    iterations and any clock readings, and an iteration in "time" mode
    continues as well: the no-signal test sits in an [elif] that is only
    reached when [mode] is neither "time" nor "samples". *)
Theorem no_signal_timeout_not_reached (n : nat)
        (tSignal tElapsed tCheck : Q) :
  Qle_bool 3 (100 - lastSignalTime (initialVars 0 0)) = true
  /\ loopIteration (cFuncPtr "samples" TOTAL_SAMPLES) "samples"
       DURATION_SECONDS TOTAL_SAMPLES 3 10000 5
       (mkTick [] 100 100 100) (initialVars 0 0) initialWorld
     = Ok (initialWorld, Continue (initialVars 0 0))
  /\ whileTrue (cFuncPtr "samples" TOTAL_SAMPLES) "samples"
       DURATION_SECONDS TOTAL_SAMPLES 3 10000 5
       (repeat (mkTick [] tSignal tElapsed tCheck) n)
       (initialVars 0 0) initialWorld
     = Ok (initialWorld, Some (initialVars 0 0))
  /\ (exists w vars,
        loopIteration (cFuncPtr "time" TOTAL_SAMPLES) "time"
          1000 TOTAL_SAMPLES 3 10000 5
          (mkTick [] 100 100 100) (initialVars 0 0) initialWorld
        = Ok (w, Continue vars))
  /\ loopIteration (cFuncPtr "neither" TOTAL_SAMPLES) "neither"
       DURATION_SECONDS TOTAL_SAMPLES 3 10000 5
       (mkTick [] 100 100 100) (initialVars 0 0) initialWorld
     = Ok (say initialWorld (NoSignalDetected 3), Break).
Proof.
  split; [reflexivity|]. split; [reflexivity|].
  split.
  - induction n as [|n IH]; [reflexivity|].
    cbn [repeat whileTrue].
    assert (Hit : loopIteration (cFuncPtr "samples" TOTAL_SAMPLES) "samples"
                    DURATION_SECONDS TOTAL_SAMPLES 3 10000 5
                    (mkTick [] tSignal tElapsed tCheck)
                    (initialVars 0 0) initialWorld
                  = Ok (initialWorld, Continue (initialVars 0 0)))
      by reflexivity.
    rewrite Hit. exact IH.
  - split; [eexists; eexists; reflexivity | reflexivity].
Qed.

(** ** Further properties of the four transforms *)

Section Streams.

Lemma pairStrings_app (a b : string) :
  Nat.even (String.length a) = true ->
  pairStrings (a ++ b)%string = pairStrings a ++ pairStrings b.
Proof.
  induction a as [| c | c d s IH] using string_pair_ind; intros Heven.
  - reflexivity.
  - discriminate.
  - cbn [String.append pairStrings app]. f_equal. apply IH. exact Heven.
Qed.

Lemma join_pairs_app (emit : string -> list string) (a b : string) :
  Nat.even (String.length a) = true ->
  Py.join (flat_map emit (pairStrings (a ++ b)%string))
  = (Py.join (flat_map emit (pairStrings a))
     ++ Py.join (flat_map emit (pairStrings b)))%string.
Proof.
  intros Heven. now rewrite pairStrings_app, flat_map_app, join_app.
Qed.

Lemma isBitString_app (a b : string) :
  isBitString (a ++ b)%string = isBitString a && isBitString b.
Proof.
  induction a as [|c a IH]; cbn [String.append isBitString].
  - reflexivity.
  - now rewrite IH, andb_assoc.
Qed.

Lemma join_pairs_isBitString (emit : string -> list string)
      (data : string) :
  (forall p, isBitString (Py.join (emit p)) = true) ->
  isBitString (Py.join (flat_map emit (pairStrings data))) = true.
Proof.
  intros Hemit. induction (pairStrings data) as [|p ps IH]; cbn [flat_map].
  - reflexivity.
  - now rewrite join_app, isBitString_app, Hemit, IH.
Qed.

Lemma cascade_pair_length (p : string) :
  String.length (Py.join (Emit.cascade p))
  = (2 * (String.length (Py.join (Emit.vn p))
          + String.length (Py.join (Emit.sr p))))%nat.
Proof.
  unfold Emit.cascade, Emit.vn, Emit.sr, pairBits.
  destruct (String.eqb_spec p "00") as [->|H00]; [reflexivity|].
  destruct (String.eqb_spec p "01") as [->|H01]; [reflexivity|].
  destruct (String.eqb_spec p "10") as [->|H10]; [reflexivity|].
  destruct (String.eqb_spec p "11") as [->|H11]; reflexivity.
Qed.

Lemma cascade_length_any (data : string) :
  String.length (iteratedVonNeumann data)
  = (2 * (String.length (vonNeumannProcessing data)
          + String.length (residualProcessing data)))%nat.
Proof.
  rewrite iteratedVonNeumann_pairs, vonNeumannProcessing_pairs,
    residualProcessing_pairs, !length_join_pairs.
  induction (pairStrings data) as [|p ps IH]; cbn [map list_sum fold_right].
  - reflexivity.
  - unfold list_sum in IH. rewrite IH, cascade_pair_length. lia.
Qed.

Lemma bitString_inj (xs ys : list bool) :
  bitString xs = bitString ys -> xs = ys.
Proof.
  revert ys. induction xs as [|x xs IH]; intros [|y ys] H;
    try discriminate; [reflexivity|].
  cbn [bitString] in H. injection H as Hc Hrest.
  f_equal; [destruct x, y; (reflexivity || discriminate) | now apply IH].
Qed.

Lemma unpair_pairsOf (bs : list bool) :
  Nat.even (List.length bs) = true -> unpair (pairsOf bs) = bs.
Proof.
  assert (H : forall n (l : list bool), (List.length l <= n)%nat ->
              Nat.even (List.length l) = true -> unpair (pairsOf l) = l).
  { clear bs. induction n as [|n IH]; intros l Hn Heven.
    - destruct l; [reflexivity | simpl in Hn; lia].
    - destruct l as [|x [|y rest]]; [reflexivity | discriminate |].
      cbn [pairsOf unpair flat_map fst snd app]. do 2 f_equal.
      apply IH; [simpl in Hn; lia | exact Heven]. }
  now apply (H (List.length bs)).
Qed.

(** The three rules together tell the pairs apart. *)
Lemma rules_jointly_injective (ps qs : list (bool * bool)) :
  flat_map svnRule ps = flat_map svnRule qs ->
  flat_map sxorRule ps = flat_map sxorRule qs ->
  flat_map srRule ps = flat_map srRule qs ->
  ps = qs.
Proof.
  revert qs. induction ps as [|p ps IH]; intros [|q qs] Hvn Hxor Hsr.
  - reflexivity.
  - destruct q as [[] []]; discriminate.
  - destruct p as [[] []]; discriminate.
  - destruct p as [[] []], q as [[] []];
      cbn [flat_map svnRule sxorRule srRule fst snd Bool.eqb app]
        in Hvn, Hxor, Hsr;
      try discriminate;
      f_equal; apply IH; congruence.
Qed.

Lemma flipText_bitString (bs : list bool) :
  flipText (bitString bs) = bitString (map negb bs).
Proof.
  induction bs as [|[] bs IH]; cbn [bitString flipText map]; try reflexivity;
    rewrite IH; reflexivity.
Qed.

Lemma perPair_negb (bs : list bool) :
  perPair svnRule (map negb bs) = map negb (perPair svnRule bs)
  /\ perPair sxorRule (map negb bs) = perPair sxorRule bs
  /\ perPair srRule (map negb bs) = map negb (perPair srRule bs).
Proof.
  assert (H : forall n (l : list bool), (List.length l <= n)%nat ->
              perPair svnRule (map negb l) = map negb (perPair svnRule l)
              /\ perPair sxorRule (map negb l) = perPair sxorRule l
              /\ perPair srRule (map negb l) = map negb (perPair srRule l)).
  { clear bs. unfold perPair. induction n as [|n IH]; intros l Hn.
    - destruct l; [repeat split; reflexivity | simpl in Hn; lia].
    - destruct l as [|x [|y rest]]; try (repeat split; reflexivity).
      destruct (IH rest) as (Hvn & Hxor & Hsr); [simpl in Hn; lia|].
      cbn [map pairsOf flat_map]. rewrite Hvn, Hxor, Hsr, !map_app.
      destruct x, y; repeat split; reflexivity. }
  now apply (H (List.length bs)).
Qed.

Lemma nat_pair_ind (P : nat -> Prop) :
  P O -> P 1%nat -> (forall n, P n -> P (S (S n))) -> forall n, P n.
Proof.
  intros H0 H1 H2 n.
  assert (H : P n /\ P (S n)).
  { induction n as [|n [IHn IHs]]; [split; assumption|].
    split; [exact IHs | apply H2, IHn]. }
  exact (proj1 H).
Qed.

End Streams.

(** X1. A stream may be processed in chunks: for a first chunk of even
    length, each of the four transforms of the concatenation is the
    concatenation of the transforms, whatever the characters. *)
Theorem transforms_of_chunks (a b : string) :
  Nat.even (String.length a) = true ->
  vonNeumannProcessing (a ++ b)
  = (vonNeumannProcessing a ++ vonNeumannProcessing b)%string
  /\ xorProcessing (a ++ b) = (xorProcessing a ++ xorProcessing b)%string
  /\ residualProcessing (a ++ b)
     = (residualProcessing a ++ residualProcessing b)%string
  /\ iteratedVonNeumann (a ++ b)
     = (iteratedVonNeumann a ++ iteratedVonNeumann b)%string.
Proof.
  intros Heven.
  rewrite !vonNeumannProcessing_pairs, !xorProcessing_pairs,
    !residualProcessing_pairs, !iteratedVonNeumann_pairs.
  repeat split; now apply join_pairs_app.
Qed.

Lemma transforms_of_chunks_witness :
  vonNeumannProcessing ("0110" ++ "100") = "100"
  /\ iteratedVonNeumann ("0110" ++ "100") = "110101".
Proof.
  destruct (transforms_of_chunks "0110" "100") as (Hvn & _ & _ & Hc).
  - reflexivity.
  - split; [rewrite Hvn | rewrite Hc]; reflexivity.
Defined.

(** X2. Whatever the input text, the four outputs consist of the
    characters ['0'] and ['1'] only. *)
Theorem outputs_are_bit_strings (data : string) :
  isBitString (vonNeumannProcessing data) = true
  /\ isBitString (xorProcessing data) = true
  /\ isBitString (residualProcessing data) = true
  /\ isBitString (iteratedVonNeumann data) = true.
Proof.
  rewrite vonNeumannProcessing_pairs, xorProcessing_pairs,
    residualProcessing_pairs, iteratedVonNeumann_pairs.
  repeat split; apply join_pairs_isBitString; intros p.
  - unfold Emit.vn. now repeat destruct (String.eqb _ _).
  - unfold Emit.xor. now destruct (_ || _).
  - unfold Emit.sr. now repeat destruct (String.eqb _ _).
  - unfold Emit.cascade, pairBits. now repeat destruct (String.eqb _ _).
Qed.

(** X3. For every input text the cascade is twice as long as the
    Von Neumann and residual sequences together: a pair adds two
    characters to the cascade exactly when it adds one to SVN or SR. *)
Theorem cascade_twice_vn_and_sr (data : string) :
  String.length (iteratedVonNeumann data)
  = (2 * (String.length (vonNeumannProcessing data)
          + String.length (residualProcessing data)))%nat.
Proof. apply cascade_length_any. Qed.

(** X4. On a bit string of length [n] the cascade has [2 * floor(n/2)]
    characters: it is as long as the part of the input made of complete
    pairs, and never shorter. *)
Theorem cascade_keeps_length (data : string) :
  isBitString data = true ->
  String.length (iteratedVonNeumann data)
  = (2 * (String.length data / 2))%nat.
Proof.
  intros Hbits.
  now rewrite cascade_length_any, (vn_sr_length_bits data Hbits).
Qed.

Lemma cascade_keeps_length_witness :
  String.length (iteratedVonNeumann "0110100") = 6%nat.
Proof.
  rewrite (cascade_keeps_length "0110100"); reflexivity.
Defined.

(** X5. The Von Neumann, XOR and residual sequences together determine
    an even-length bit sequence: two such inputs with the same three
    outputs are equal. *)
Theorem three_streams_determine_input (bs bt : list bool) :
  Nat.even (List.length bs) = true ->
  Nat.even (List.length bt) = true ->
  vonNeumannProcessing (bitString bs) = vonNeumannProcessing (bitString bt) ->
  xorProcessing (bitString bs) = xorProcessing (bitString bt) ->
  residualProcessing (bitString bs) = residualProcessing (bitString bt) ->
  bs = bt.
Proof.
  intros Hbs Hbt Hvn Hxor Hsr.
  rewrite !vonNeumannProcessing_bits in Hvn.
  rewrite !xorProcessing_bits in Hxor.
  rewrite !residualProcessing_bits in Hsr.
  apply bitString_inj in Hvn, Hxor, Hsr.
  rewrite <- (unpair_pairsOf bs Hbs), <- (unpair_pairsOf bt Hbt).
  f_equal. now apply rules_jointly_injective.
Qed.

Lemma three_streams_determine_input_witness :
  [false; true; true; true] = [false; true; true; true].
Proof.
  apply (three_streams_determine_input [false; true; true; true]
           [false; true; true; true]); reflexivity.
Defined.

(** X6. The cascade does not tell the pair [10] from the pair [11]: both
    add ["01"], at any pair position of any text. *)
Theorem cascade_confuses_10_and_11 (before after : string) :
  Nat.even (String.length before) = true ->
  iteratedVonNeumann (before ++ "10" ++ after)
  = iteratedVonNeumann (before ++ "11" ++ after).
Proof.
  intros Heven.
  rewrite !iteratedVonNeumann_pairs, !(join_pairs_app _ before) by exact Heven.
  rewrite <- !iteratedVonNeumann_pairs. f_equal.
  cbn [String.append].
  rewrite (iteratedVonNeumann_step "1" "0" after).
  rewrite (iteratedVonNeumann_step "1" "1" after).
  reflexivity.
Qed.

Lemma cascade_confuses_10_and_11_witness :
  iteratedVonNeumann "001001" = iteratedVonNeumann "001101".
Proof.
  apply (cascade_confuses_10_and_11 "00" "01"). reflexivity.
Defined.

(** X7. Exchanging ['0'] and ['1'] in a bit string exchanges them in its
    Von Neumann and residual sequences and leaves its XOR sequence
    unchanged. *)
Theorem transforms_of_complement (bs : list bool) :
  vonNeumannProcessing (flipText (bitString bs))
  = flipText (vonNeumannProcessing (bitString bs))
  /\ xorProcessing (flipText (bitString bs)) = xorProcessing (bitString bs)
  /\ residualProcessing (flipText (bitString bs))
     = flipText (residualProcessing (bitString bs)).
Proof.
  destruct (perPair_negb bs) as (Hvn & Hxor & Hsr).
  rewrite !flipText_bitString, !vonNeumannProcessing_bits,
    !xorProcessing_bits, !residualProcessing_bits, !flipText_bitString.
  now rewrite Hvn, Hxor, Hsr.
Qed.

(** X8. A source stuck at one character, whichever it is, gives an empty
    Von Neumann sequence and an all-zero XOR sequence of half the
    length. *)
Theorem stuck_source (c : ascii) (n : nat) :
  vonNeumannProcessing (repeatChar c n) = ""
  /\ xorProcessing (repeatChar c n) = repeatChar "0" (n / 2).
Proof.
  assert (Hvn : vonNeumannProcessing (String c (String c "")) = "").
  { rewrite vonNeumannProcessing_pairs, join_single_pair. unfold Emit.vn.
    cbn [String.eqb].
    destruct (Ascii.eqb_spec c "1") as [H1|_]; [subst c; reflexivity|].
    destruct (Ascii.eqb_spec c "0") as [H0|_]; [subst c|]; reflexivity. }
  assert (Hxor : xorProcessing (String c (String c "")) = "0").
  { rewrite xorProcessing_pairs, join_single_pair. unfold Emit.xor.
    cbn [String.eqb].
    destruct (Ascii.eqb_spec c "1") as [H1|_]; [subst c; reflexivity|].
    destruct (Ascii.eqb_spec c "0") as [H0|_]; [subst c|]; reflexivity. }
  induction n as [| | n [IHvn IHxor]] using nat_pair_ind.
  - split; reflexivity.
  - split; reflexivity.
  - cbn [repeatChar].
    rewrite vonNeumannProcessing_step, xorProcessing_step, Hvn, Hxor,
      IHvn, IHxor, div2_SS.
    split; reflexivity.
Qed.

(** ** Further properties of the callback *)

Section Callback.

Lemma clkBinaryOf_bits (thresholdClock VOLTAGE_RANGE : Q)
      (noOfSamples : Z) (w : World) :
  Forall isBit (clkBinaryOf thresholdClock VOLTAGE_RANGE noOfSamples w).
Proof.
  unfold clkBinaryOf. apply Forall_forall. intros x Hx.
  apply in_map_iff in Hx as (v & <- & _). apply astypeInt_bit.
Qed.

Lemma length_clkBinaryOf (thresholdClock VOLTAGE_RANGE : Q)
      (noOfSamples : Z) (w : World) :
  List.length (clkBinaryOf thresholdClock VOLTAGE_RANGE noOfSamples w)
  = List.length (Py.take (bufferClock w) noOfSamples).
Proof. unfold clkBinaryOf. now rewrite !length_map. Qed.

Lemma length_dataBinaryOf (thresholdData VOLTAGE_RANGE : Q)
      (useX10Probe : bool) (noOfSamples : Z) (w : World) :
  List.length
    (dataBinaryOf thresholdData VOLTAGE_RANGE useX10Probe noOfSamples w)
  = List.length (Py.take (bufferData w) noOfSamples).
Proof.
  unfold dataBinaryOf. destruct useX10Probe; now rewrite !length_map.
Qed.

Lemma length_take_same {A B : Type} (l : list A) (m : list B) (k : Z) :
  List.length l = List.length m ->
  List.length (Py.take l k) = List.length (Py.take m k).
Proof.
  intros Hlen. unfold Py.take. now rewrite !length_firstn, Hlen.
Qed.

Lemma length_take_min {A : Type} (l : list A) (k : Z) :
  0 <= k ->
  Z.of_nat (List.length (Py.take l k)) = Z.min (Z.of_nat (List.length l)) k.
Proof.
  intros Hk. unfold Py.take, Py.bound. rewrite length_firstn.
  destruct (Z.ltb_spec k 0); lia.
Qed.

Lemma length_take_le_length {A : Type} (l : list A) (k : Z) :
  (List.length (Py.take l k) <= List.length l)%nat.
Proof. unfold Py.take. rewrite length_firstn. lia. Qed.

Lemma length_index (a idx xs : list Z) :
  Np.index a idx = Ok xs -> List.length xs = List.length idx.
Proof.
  revert xs. induction idx as [|j idx IH]; intros xs.
  - now intros [= <-].
  - cbn [Np.index]. destruct (Np.item a j) as [x|e]; [|discriminate].
    destruct (Np.index a idx) as [ys|e]; [|discriminate].
    intros [= <-]. cbn [List.length]. f_equal. now apply IH.
Qed.

(** Two rising edges need a falling sample between them. *)
Lemma rising_bound_from (l : list Z) :
  Forall isBit l ->
  forall j,
    (2 * List.length (Np.whereFrom j (map (fun d => Z.eqb d 1) (Np.diff l)))
     + (if Z.eqb (hd 0%Z l) 1 then 1 else 0) <= List.length l)%nat.
Proof.
  induction 1 as [|x l Hx Hl IH]; intros j.
  - cbn. lia.
  - destruct l as [|y l].
    + cbn [Np.diff map Np.whereFrom List.length hd].
      destruct (x =? 1); lia.
    + change (Np.diff (x :: y :: l)) with ((y - x) :: Np.diff (y :: l)).
      cbn [map Np.whereFrom hd]. specialize (IH (j + 1)).
      cbn [hd] in IH. cbn [List.length] in IH |- *.
      assert (Hy : isBit y) by now inversion Hl.
      destruct Hx as [-> | ->], Hy as [-> | ->];
        cbn [Z.sub Z.opp Z.add Z.eqb Pos.eqb Z.pos_sub] in IH |- *;
        cbn [List.length]; lia.
Qed.

Lemma rising_bound (clkBinary : list Z) :
  Forall isBit clkBinary ->
  (2 * List.length (risingEdgesOf clkBinary) <= List.length clkBinary)%nat.
Proof.
  intros Hbits. pose proof (rising_bound_from clkBinary Hbits 0) as H.
  unfold risingEdgesOf, Np.where_. lia.
Qed.

Lemma str_bit (x : Z) : isBit x -> Py.str x = "0" \/ Py.str x = "1".
Proof. intros [-> | ->]; [left | right]; reflexivity. Qed.

Lemma isBitString_join_bits (bits : list Z) :
  Forall isBit bits -> isBitString (Py.join (map Py.str bits)) = true.
Proof.
  induction 1 as [|x bits Hx _ IH]; [reflexivity|].
  cbn [map]. rewrite join_cons, isBitString_app, IH.
  destruct (str_bit x Hx) as [-> | ->]; reflexivity.
Qed.

(** What a returning callback has done to the world. *)
Lemma callback_effect (noOfSamples overflow : Z)
      (thresholdClock thresholdData VOLTAGE_RANGE : Q)
      (totalSamples : Z) (captureMode : string) (useX10Probe : bool)
      (w w' : World) :
  streamingCallback noOfSamples overflow thresholdClock thresholdData
    VOLTAGE_RANGE totalSamples captureMode useX10Probe w = Ok w' ->
  exists kept : list Z,
    Forall isBit kept
    /\ (2 * List.length kept <= List.length (bufferClock w))%nat
    /\ bufferClock w' = bufferClock w
    /\ bufferData w' = bufferData w
    /\ samplesCollected w'
       = samplesCollected w + Z.of_nat (List.length kept)
    /\ outputFile w'
       = (outputFile w ++ Py.join (map Py.str kept))%string.
Proof.
  unfold streamingCallback. destruct (overflow =? 0).
  - set (clk := clkBinaryOf thresholdClock VOLTAGE_RANGE noOfSamples w).
    set (dat := dataBinaryOf thresholdData VOLTAGE_RANGE useX10Probe
                  noOfSamples w).
    destruct (sampleOnEdges clk dat) as [sampledBits|e] eqn:Hs;
      [|discriminate].
    intros [= <-].
    assert (Hbits : Forall isBit sampledBits).
    { eapply index_bits; [|exact Hs]. apply dataBinaryOf_bits. }
    assert (Hlen : (2 * List.length sampledBits
                    <= List.length (bufferClock w))%nat).
    { apply length_index in Hs. rewrite Hs.
      pose proof (rising_bound clk (clkBinaryOf_bits _ _ _ _)) as Hr.
      unfold clk in Hr at 2. rewrite length_clkBinaryOf in Hr.
      pose proof (length_take_le_length (bufferClock w) noOfSamples).
      fold clk in Hr. lia. }
    destruct (String.eqb captureMode "samples").
    + exists (Py.take sampledBits (totalSamples - samplesCollected w)).
      split; [now apply take_Forall|].
      split; [|repeat split].
      pose proof (length_take_le_length sampledBits
                    (totalSamples - samplesCollected w)). lia.
    + exists sampledBits. repeat split; assumption.
  - intros [= <-]. exists [].
    cbn [samplesCollected outputFile bufferClock bufferData map List.length].
    split; [constructor|]. split; [lia|].
    split; [reflexivity|]. split; [reflexivity|].
    split; [lia | now rewrite append_empty_r].
Qed.

End Callback.

(** X9. When the two buffers have the same length, as [main] allocates
    them, the callback returns normally for every sample count, overflow
    flag, threshold and capture mode: no [IndexError] leaves it. *)
Theorem callback_returns_on_equal_buffers (noOfSamples overflow : Z)
        (thresholdClock thresholdData VOLTAGE_RANGE : Q)
        (totalSamples : Z) (captureMode : string) (useX10Probe : bool)
        (w : World) :
  List.length (bufferClock w) = List.length (bufferData w) ->
  exists w',
    streamingCallback noOfSamples overflow thresholdClock thresholdData
      VOLTAGE_RANGE totalSamples captureMode useX10Probe w = Ok w'.
Proof.
  intros Hlen. unfold streamingCallback.
  destruct (overflow =? 0); [|eexists; reflexivity].
  rewrite sampleOnEdges_spec; [eexists; reflexivity|].
  rewrite length_clkBinaryOf, length_dataBinaryOf.
  now apply length_take_same.
Qed.

Lemma callback_returns_on_equal_buffers_witness :
  exists w',
    streamingCallback 3 0 THRESHOLD_CLOCK THRESHOLD_DATA VOLTAGE_RANGE
      TOTAL_SAMPLES "samples" true togglingBatch = Ok w'.
Proof.
  apply (callback_returns_on_equal_buffers 3 0 THRESHOLD_CLOCK
           THRESHOLD_DATA VOLTAGE_RANGE TOTAL_SAMPLES "samples" true
           togglingBatch).
  reflexivity.
Defined.

(** X10. A returning callback only appends to the file, what it appends
    is a text of ['0'] and ['1'], the counter grows by the number of
    characters appended, and the buffers are left as they were; this
    holds in every capture mode and with or without overflow. *)
Theorem callback_appends_what_it_counts (noOfSamples overflow : Z)
        (thresholdClock thresholdData VOLTAGE_RANGE : Q)
        (totalSamples : Z) (captureMode : string) (useX10Probe : bool)
        (w w' : World) :
  streamingCallback noOfSamples overflow thresholdClock thresholdData
    VOLTAGE_RANGE totalSamples captureMode useX10Probe w = Ok w' ->
  exists appended : string,
    isBitString appended = true
    /\ outputFile w' = (outputFile w ++ appended)%string
    /\ samplesCollected w'
       = samplesCollected w + Z.of_nat (String.length appended)
    /\ bufferClock w' = bufferClock w
    /\ bufferData w' = bufferData w.
Proof.
  intros Hcall.
  destruct (callback_effect _ _ _ _ _ _ _ _ _ _ Hcall)
    as (kept & Hbits & _ & Hclk & Hdat & Hcount & Hfile).
  exists (Py.join (map Py.str kept)).
  split; [now apply isBitString_join_bits|].
  split; [exact Hfile|].
  split; [now rewrite length_join_bits|].
  split; assumption.
Qed.

Lemma callback_appends_what_it_counts_witness :
  exists appended : string,
    isBitString appended = true
    /\ "1" = ("" ++ appended)%string.
Proof.
  destruct (callback_appends_what_it_counts 4 0 THRESHOLD_CLOCK
              THRESHOLD_DATA VOLTAGE_RANGE 1 "samples" true togglingBatch
              {| bufferClock := [0; 32767; 0; 32767];
                 bufferData := [32767; 0; 32767; 0];
                 samplesCollected := 1;
                 outputFile := "1";
                 console := [] |})
    as (appended & Hbits & Hfile & _).
  - reflexivity.
  - exists appended. split; [exact Hbits | exact Hfile].
Defined.

(** X11. One call of the callback adds at most one bit per two samples
    of the clock buffer: two rising edges need a sample in between. *)
Theorem callback_at_most_half_the_samples (noOfSamples overflow : Z)
        (thresholdClock thresholdData VOLTAGE_RANGE : Q)
        (totalSamples : Z) (captureMode : string) (useX10Probe : bool)
        (w w' : World) :
  streamingCallback noOfSamples overflow thresholdClock thresholdData
    VOLTAGE_RANGE totalSamples captureMode useX10Probe w = Ok w' ->
  0 <= samplesCollected w' - samplesCollected w
  /\ 2 * (samplesCollected w' - samplesCollected w)
     <= Z.of_nat (List.length (bufferClock w)).
Proof.
  intros Hcall.
  destruct (callback_effect _ _ _ _ _ _ _ _ _ _ Hcall)
    as (kept & _ & Hhalf & _ & _ & Hcount & _).
  lia.
Qed.

Lemma callback_at_most_half_the_samples_witness :
  0 <= 2 - 0 /\ 2 * (2 - 0) <= 4.
Proof.
  apply (callback_at_most_half_the_samples 4 0 THRESHOLD_CLOCK
           THRESHOLD_DATA VOLTAGE_RANGE TOTAL_SAMPLES "time" true
           togglingBatch
           {| bufferClock := [0; 32767; 0; 32767];
              bufferData := [32767; 0; 32767; 0];
              samplesCollected := 2;
              outputFile := "11";
              console := [] |}).
  reflexivity.
Defined.

(** X12. In "samples" mode, with the counter within the cap and buffers
    of equal length, a non-overflow call moves the counter to the
    smaller of the cap and the counter plus the number of rising edges
    of the batch: the last batch is trimmed to reach the cap exactly. *)
Theorem samples_callback_reaches_cap_exactly (noOfSamples : Z)
        (thresholdClock thresholdData VOLTAGE_RANGE : Q)
        (totalSamples : Z) (useX10Probe : bool) (w : World) :
  List.length (bufferClock w) = List.length (bufferData w) ->
  0 <= samplesCollected w <= totalSamples ->
  exists w',
    streamingCallback noOfSamples 0 thresholdClock thresholdData
      VOLTAGE_RANGE totalSamples "samples" useX10Probe w = Ok w'
    /\ samplesCollected w'
       = Z.min totalSamples
               (samplesCollected w
                + Z.of_nat (List.length
                              (risingIndices
                                 (clkBinaryOf thresholdClock VOLTAGE_RANGE
                                              noOfSamples w)))).
Proof.
  intros Hlen Hcount. unfold streamingCallback. cbn [Z.eqb].
  rewrite sampleOnEdges_spec
    by (rewrite length_clkBinaryOf, length_dataBinaryOf;
        now apply length_take_same).
  cbn [String.eqb Ascii.eqb Bool.eqb andb].
  eexists. split; [reflexivity|]. cbn [samplesCollected].
  rewrite length_take_min by lia.
  unfold sampleBeforeEdge. rewrite length_map. lia.
Qed.

Lemma samples_callback_reaches_cap_exactly_witness :
  exists w',
    streamingCallback 4 0 THRESHOLD_CLOCK THRESHOLD_DATA VOLTAGE_RANGE 1
      "samples" true togglingBatch = Ok w'
    /\ samplesCollected w' = 1.
Proof.
  destruct (samples_callback_reaches_cap_exactly 4 THRESHOLD_CLOCK
              THRESHOLD_DATA VOLTAGE_RANGE 1 true togglingBatch)
    as (w' & Hcall & Hcount).
  - reflexivity.
  - cbn. lia.
  - exists w'. split; [exact Hcall | exact Hcount].
Defined.

(** X13. A non-overflow batch of zero or one sample has no edge: the
    callback returns normally, even with buffers of different lengths,
    and leaves the counter and the file as they were. *)
Theorem short_batch_yields_nothing (noOfSamples : Z)
        (thresholdClock thresholdData VOLTAGE_RANGE : Q)
        (totalSamples : Z) (captureMode : string) (useX10Probe : bool)
        (w : World) :
  0 <= noOfSamples <= 1 ->
  exists w',
    streamingCallback noOfSamples 0 thresholdClock thresholdData
      VOLTAGE_RANGE totalSamples captureMode useX10Probe w = Ok w'
    /\ samplesCollected w' = samplesCollected w
    /\ outputFile w' = outputFile w.
Proof.
  intros Hn. unfold streamingCallback. cbn [Z.eqb].
  set (clk := clkBinaryOf thresholdClock VOLTAGE_RANGE noOfSamples w).
  assert (Hshort : (List.length clk <= 1)%nat).
  { unfold clk. rewrite length_clkBinaryOf.
    pose proof (length_take_le (bufferClock w) noOfSamples). lia. }
  assert (Hedges : risingEdgesOf clk = []).
  { destruct clk as [|x [|y rest]]; [reflexivity | reflexivity |].
    simpl in Hshort. lia. }
  unfold sampleOnEdges. rewrite Hedges. cbn [Np.index].
  assert (Hkept : forall k : Z, Py.take (@nil Z) k = []).
  { intros k. unfold Py.take. apply firstn_nil. }
  destruct (String.eqb captureMode "samples"); [rewrite Hkept|];
    eexists; (split; [reflexivity|]);
    cbn [samplesCollected outputFile map List.length];
    (split; [lia | apply append_empty_r]).
Qed.

Lemma short_batch_yields_nothing_witness :
  exists w',
    streamingCallback 1 0 THRESHOLD_CLOCK THRESHOLD_DATA VOLTAGE_RANGE
      TOTAL_SAMPLES "time" true togglingBatch = Ok w'
    /\ samplesCollected w' = 0.
Proof.
  destruct (short_batch_yields_nothing 1 THRESHOLD_CLOCK THRESHOLD_DATA
              VOLTAGE_RANGE TOTAL_SAMPLES "time" true togglingBatch)
    as (w' & Hcall & Hcount & _).
  - lia.
  - exists w'. split; [exact Hcall | exact Hcount].
Defined.

(** ** Further properties of the polling loop *)

Section Stopping.

Variables (callback : Callback) (durationSeconds : Q) (totalSamples : Z).
Variables (no_signal_duration_threshold : Q).
Variables (statusInterval : Z) (timeStatusInterval : Q).

Lemma refreshSignal_startTime (t : Q) (vars : LoopVars) (w : World) :
  startTime (refreshSignal t vars w) = startTime vars.
Proof. unfold refreshSignal. now destruct (negb _). Qed.

(** An iteration in "time" mode leaves exactly when the duration has
    elapsed, and otherwise keeps the start time. *)
Lemma loopIteration_time (t : Tick) (vars : LoopVars) (w w1 : World)
      (flow : Flow) :
  loopIteration callback "time" durationSeconds totalSamples
    no_signal_duration_threshold statusInterval timeStatusInterval
    t vars w = Ok (w1, flow) ->
  (Qle_bool durationSeconds (timeAtElapsed t - startTime vars) = true ->
   flow = Break)
  /\ (Qle_bool durationSeconds (timeAtElapsed t - startTime vars) = false ->
      exists vars1, flow = Continue vars1
                    /\ startTime vars1 = startTime vars).
Proof.
  unfold loopIteration.
  destruct (getStreamingLatestValues callback (poll t) w) as [w0|e];
    [|discriminate].
  unfold stoppingConditions. cbn [String.eqb Ascii.eqb Bool.eqb andb].
  rewrite refreshSignal_startTime.
  destruct (Qle_bool durationSeconds _).
  - intros [= <- <-]. split; [reflexivity | discriminate].
  - destruct (Qle_bool timeStatusInterval _); intros [= <- <-];
      (split; [discriminate|]); intros _; eexists;
      (split; [reflexivity|]); cbn [startTime];
      first [reflexivity | apply refreshSignal_startTime].
Qed.

Lemma whileTrue_time_deadline (ticks : list Tick) (t : Tick)
      (vars : LoopVars) (w w' : World) (left : option LoopVars) :
  In t ticks ->
  Qle_bool durationSeconds (timeAtElapsed t - startTime vars) = true ->
  whileTrue callback "time" durationSeconds totalSamples
    no_signal_duration_threshold statusInterval timeStatusInterval
    ticks vars w = Ok (w', left) ->
  left = None.
Proof.
  revert vars w. induction ticks as [|t0 ticks IH]; intros vars w Hin Hdue.
  - destruct Hin.
  - cbn [whileTrue].
    destruct (loopIteration _ _ _ _ _ _ _ t0 vars w) as [[w1 flow]|e] eqn:Hit;
      [|discriminate].
    destruct (loopIteration_time _ _ _ _ _ Hit) as [Hbreak Hgo].
    destruct flow as [vars1|]; [|now intros [= _ <-]].
    destruct (Qle_bool durationSeconds (timeAtElapsed t0 - startTime vars))
      eqn:Hd0.
    + now specialize (Hbreak eq_refl).
    + destruct (Hgo eq_refl) as (vars2 & [= <-] & Hstart).
      destruct Hin as [-> | Hin]; [congruence|].
      apply IH; [exact Hin | now rewrite Hstart].
Qed.

Lemma whileTrue_time_early (ticks : list Tick)
      (vars : LoopVars) (w w' : World) (left : option LoopVars) :
  (forall t, In t ticks ->
     Qle_bool durationSeconds (timeAtElapsed t - startTime vars) = false) ->
  whileTrue callback "time" durationSeconds totalSamples
    no_signal_duration_threshold statusInterval timeStatusInterval
    ticks vars w = Ok (w', left) ->
  exists vars', left = Some vars'.
Proof.
  revert vars w. induction ticks as [|t0 ticks IH]; intros vars w Hearly.
  - intros [= _ <-]. now exists vars.
  - cbn [whileTrue].
    destruct (loopIteration _ _ _ _ _ _ _ t0 vars w) as [[w1 flow]|e] eqn:Hit;
      [|discriminate].
    destruct (loopIteration_time _ _ _ _ _ Hit) as [_ Hgo].
    destruct (Hgo (Hearly t0 (or_introl eq_refl)))
      as (vars1 & -> & Hstart).
    apply IH. intros t Ht. rewrite Hstart. apply Hearly. now right.
Qed.

(** In "samples" mode the loop leaves only with the target met. *)
Lemma loopIteration_samples_break (t : Tick) (vars : LoopVars)
      (w w1 : World) :
  loopIteration callback "samples" durationSeconds totalSamples
    no_signal_duration_threshold statusInterval timeStatusInterval
    t vars w = Ok (w1, Break) ->
  totalSamples <= samplesCollected w1.
Proof.
  unfold loopIteration.
  destruct (getStreamingLatestValues callback (poll t) w) as [w0|e];
    [|discriminate].
  unfold stoppingConditions. cbn [String.eqb Ascii.eqb Bool.eqb andb].
  destruct (Z.leb_spec totalSamples (samplesCollected w0)) as [Hmet|_].
  - intros [= <-]. exact Hmet.
  - destruct (_ <=? _); discriminate.
Qed.

Lemma whileTrue_samples_stopped (ticks : list Tick)
      (vars : LoopVars) (w w' : World) :
  whileTrue callback "samples" durationSeconds totalSamples
    no_signal_duration_threshold statusInterval timeStatusInterval
    ticks vars w = Ok (w', None) ->
  totalSamples <= samplesCollected w'.
Proof.
  revert vars w. induction ticks as [|t0 ticks IH]; intros vars w.
  - discriminate.
  - cbn [whileTrue].
    destruct (loopIteration _ _ _ _ _ _ _ t0 vars w) as [[w1 flow]|e] eqn:Hit;
      [|discriminate].
    destruct flow as [vars1|].
    + apply IH.
    + intros [= <-]. now apply (loopIteration_samples_break _ _ _ _ Hit).
Qed.

End Stopping.

(** X14. A count-bounded recording that has stopped holds exactly the
    requested number of bits: when [collectData] in "samples" mode, fed
    by the "samples" callback with the same cap and started with the
    counter at zero, has left its loop, [samplesCollected] equals
    [totalSamples] and so does the length of the output file. *)
Theorem stopped_recording_has_exactly_the_cap
        (thresholdClock thresholdData VOLTAGE_RANGE : Q)
        (useX10Probe : bool) (durationSeconds : Q) (totalSamples : Z)
        (no_signal_duration_threshold : Q)
        (statusInterval : Z) (timeStatusInterval : Q)
        (timeAtStart timeAtFirstSignal timeAtEnd : Q)
        (ticks : list Tick) (w w' : World) :
  0 <= totalSamples ->
  samplesCollected w = 0 ->
  collectData
    (samplesCallback thresholdClock thresholdData VOLTAGE_RANGE
                     totalSamples useX10Probe)
    "samples" durationSeconds totalSamples no_signal_duration_threshold
    statusInterval timeStatusInterval
    timeAtStart timeAtFirstSignal timeAtEnd ticks w = Ok (w', None) ->
  samplesCollected w' = totalSamples
  /\ Z.of_nat (String.length (outputFile w')) = totalSamples.
Proof.
  intros Hcap Hzero Hrun.
  pose proof (collectData_reachable _ _ _ _ _ _ _ _ _ _ _ _ _ _ Hzero Hrun)
    as Hreach.
  destruct (reachable_within_budget _ _ _ _ _ _ Hcap Hreach)
    as [Hcount Hfile].
  assert (Hmet : totalSamples <= samplesCollected w').
  { unfold collectData in Hrun.
    destruct (whileTrue _ _ _ _ _ _ _ ticks _ _) as [[w1 l1]|e] eqn:Hloop;
      [|discriminate].
    destruct l1 as [vars1|]; [discriminate|].
    injection Hrun as <-. cbn [say samplesCollected].
    now apply (whileTrue_samples_stopped _ _ _ _ _ _ _ _ _ _ Hloop). }
  split; lia.
Qed.

Lemma stopped_recording_has_exactly_the_cap_witness :
  exists w',
    collectData
      (samplesCallback THRESHOLD_CLOCK THRESHOLD_DATA VOLTAGE_RANGE 2 true)
      "samples" DURATION_SECONDS 2 3 10000 5 0 0 1
      [mkTick [mkDelivery [0; 32767; 0; 32767; 0; 32767]
                          [32767; 0; 32767; 0; 0; 32767] 6 0] 1 1 1]
      initialWorld = Ok (w', None)
    /\ samplesCollected w' = 2
    /\ outputFile w' = "11".
Proof.
  eexists. split; [reflexivity|]. split; [|reflexivity].
  refine (proj1 (stopped_recording_has_exactly_the_cap THRESHOLD_CLOCK
                   THRESHOLD_DATA VOLTAGE_RANGE true DURATION_SECONDS 2 3
                   10000 5 0 0 1
                   [mkTick [mkDelivery [0; 32767; 0; 32767; 0; 32767]
                                       [32767; 0; 32767; 0; 0; 32767] 6 0]
                           1 1 1]
                   initialWorld _ _ _ _)).
  - lia.
  - reflexivity.
  - reflexivity.
Defined.

(** X15. In "time" mode the loop has left once a check has seen the
    duration elapsed: with such a tick among those supplied,
    [collectData] never comes back still running, whatever the driver
    delivered. *)
Theorem time_recording_stops_at_deadline
        (callback : Callback) (durationSeconds : Q) (totalSamples : Z)
        (no_signal_duration_threshold : Q)
        (statusInterval : Z) (timeStatusInterval : Q)
        (timeAtStart timeAtFirstSignal timeAtEnd : Q)
        (ticks : list Tick) (t : Tick) (w w' : World)
        (left : option LoopVars) :
  In t ticks ->
  Qle_bool durationSeconds (timeAtElapsed t - timeAtStart) = true ->
  collectData callback "time" durationSeconds totalSamples
    no_signal_duration_threshold statusInterval timeStatusInterval
    timeAtStart timeAtFirstSignal timeAtEnd ticks w = Ok (w', left) ->
  left = None.
Proof.
  intros Hin Hdue. unfold collectData.
  destruct (whileTrue _ _ _ _ _ _ _ ticks _ _) as [[w1 l1]|e] eqn:Hloop;
    [|discriminate].
  assert (Hnone : l1 = None).
  { eapply whileTrue_time_deadline; [exact Hin | | exact Hloop].
    exact Hdue. }
  subst l1. now intros [= _ <-].
Qed.

Lemma time_recording_stops_at_deadline_witness :
  exists w' left,
    collectData (cFuncPtr "time" TOTAL_SAMPLES) "time" DURATION_SECONDS
      TOTAL_SAMPLES 3 10000 5 0 0 13
      [mkTick [] 4 4 4; mkTick [] 12 12 12; mkTick [] 20 20 20]
      initialWorld = Ok (w', left)
    /\ left = None.
Proof.
  eexists. eexists. split; [reflexivity|].
  eapply (time_recording_stops_at_deadline
            (cFuncPtr "time" TOTAL_SAMPLES) DURATION_SECONDS TOTAL_SAMPLES
            3 10000 5 0 0 13
            [mkTick [] 4 4 4; mkTick [] 12 12 12; mkTick [] 20 20 20]
            (mkTick [] 12 12 12) initialWorld).
  - right. left. reflexivity.
  - reflexivity.
  - reflexivity.
Defined.

(** X16. In "time" mode nothing but the clock ends the loop: while every
    check sees less than the duration elapsed, [collectData] is still
    running after the last tick, whatever the driver delivered and
    however long the source has been silent. *)
Theorem time_recording_runs_until_deadline
        (callback : Callback) (durationSeconds : Q) (totalSamples : Z)
        (no_signal_duration_threshold : Q)
        (statusInterval : Z) (timeStatusInterval : Q)
        (timeAtStart timeAtFirstSignal timeAtEnd : Q)
        (ticks : list Tick) (w w' : World) (left : option LoopVars) :
  (forall t, In t ticks ->
     Qle_bool durationSeconds (timeAtElapsed t - timeAtStart) = false) ->
  collectData callback "time" durationSeconds totalSamples
    no_signal_duration_threshold statusInterval timeStatusInterval
    timeAtStart timeAtFirstSignal timeAtEnd ticks w = Ok (w', left) ->
  exists vars, left = Some vars.
Proof.
  intros Hearly. unfold collectData.
  destruct (whileTrue _ _ _ _ _ _ _ ticks _ _) as [[w1 l1]|e] eqn:Hloop;
    [|discriminate].
  assert (Hsome : exists vars, l1 = Some vars).
  { eapply whileTrue_time_early; [|exact Hloop]. exact Hearly. }
  destruct Hsome as (vars & ->).
  intros [= _ <-]. now exists vars.
Qed.

Lemma time_recording_runs_until_deadline_witness :
  exists w' left,
    collectData (cFuncPtr "time" TOTAL_SAMPLES) "time" DURATION_SECONDS
      TOTAL_SAMPLES 3 10000 5 0 0 13
      [mkTick [] 4 4 4; mkTick [] 8 8 8] initialWorld = Ok (w', left)
    /\ exists vars, left = Some vars.
Proof.
  eexists. eexists. split; [reflexivity|].
  eapply (time_recording_runs_until_deadline
            (cFuncPtr "time" TOTAL_SAMPLES) DURATION_SECONDS TOTAL_SAMPLES
            3 10000 5 0 0 13 [mkTick [] 4 4 4; mkTick [] 8 8 8]
            initialWorld).
  - intros t [<- | [<- | []]]; reflexivity.
  - reflexivity.
Defined.

(** ** The file driver *)

Import Files.

Section FileDriver.

Lemma isspace_bitChar (b : bool) : isspace (bitChar b) = false.
Proof. destruct b; reflexivity. Qed.

Lemma allSpace_app (a b : string) :
  allSpace (a ++ b)%string = allSpace a && allSpace b.
Proof.
  induction a as [|c a IH]; cbn [String.append allSpace].
  - reflexivity.
  - now rewrite IH, andb_assoc.
Qed.

Lemma lstrip_allSpace_app (ws s : string) :
  allSpace ws = true -> lstrip (ws ++ s)%string = lstrip s.
Proof.
  induction ws as [|c ws IH]; cbn [String.append allSpace lstrip].
  - reflexivity.
  - intros H. apply andb_prop in H as [Hc Hws]. now rewrite Hc, IH.
Qed.

Lemma rstrip_allSpace (ws : string) : allSpace ws = true -> rstrip ws = "".
Proof.
  induction ws as [|c ws IH]; cbn [allSpace rstrip].
  - reflexivity.
  - intros H. apply andb_prop in H as [Hc Hws]. now rewrite IH, Hc.
Qed.

Lemma lstrip_allSpace (ws : string) : allSpace ws = true -> lstrip ws = "".
Proof.
  induction ws as [|c ws IH]; cbn [allSpace lstrip].
  - reflexivity.
  - intros H. apply andb_prop in H as [Hc Hws]. now rewrite Hc, IH.
Qed.

Lemma rstrip_bits_app (bs : list bool) (ws : string) :
  allSpace ws = true -> rstrip (bitString bs ++ ws)%string = bitString bs.
Proof.
  intros Hws. induction bs as [|b bs IH].
  - now apply rstrip_allSpace.
  - cbn [bitString String.append rstrip]. rewrite IH.
    destruct bs as [|b' bs].
    + cbn [bitString]. now rewrite isspace_bitChar.
    + reflexivity.
Qed.

(** Whitespace around a bit string is stripped, and nothing else. *)
Lemma strip_padded_bits (ws1 ws2 : string) (bs : list bool) :
  allSpace ws1 = true -> allSpace ws2 = true ->
  strip (ws1 ++ bitString bs ++ ws2) = bitString bs.
Proof.
  intros H1 H2. unfold strip. rewrite lstrip_allSpace_app by exact H1.
  destruct bs as [|b bs].
  - cbn [bitString String.append]. now rewrite lstrip_allSpace.
  - assert (Hhead : lstrip (bitString (b :: bs) ++ ws2)
                    = (bitString (b :: bs) ++ ws2)%string).
    { cbn [bitString String.append lstrip]. now rewrite isspace_bitChar. }
    rewrite Hhead. now apply rstrip_bits_app.
Qed.

Lemma write_other (fs : FileSystem) (name content other : string) :
  other <> name -> write fs name content other = fs other.
Proof.
  intros Hne. unfold write. apply String.eqb_neq in Hne. now rewrite Hne.
Qed.

Lemma not_output_name (name : string) :
  ~ In name outputNames ->
  name <> "von_neumann_output.txt" /\ name <> "sxor_output.txt"
  /\ name <> "sr_output.txt" /\ name <> "iterated_von_neumann.txt".
Proof.
  unfold outputNames. cbn [In]. intros Hnot.
  repeat split; intros ->; apply Hnot; auto.
Qed.

(** The files after a successful run, read one name at a time. *)
Lemma processFile_done (inputFileName text : string) (fs : FileSystem) :
  fs inputFileName = Some text ->
  exists fs' console,
    processFile inputFileName fs = Done fs' console
    /\ fs' "von_neumann_output.txt"
       = Some (vonNeumannProcessing (strip text))
    /\ fs' "sxor_output.txt" = Some (xorProcessing (strip text))
    /\ fs' "sr_output.txt" = Some (residualProcessing (strip text))
    /\ fs' "iterated_von_neumann.txt"
       = Some (iteratedVonNeumann (strip text))
    /\ (forall name, ~ In name outputNames -> fs' name = fs name).
Proof.
  intros Hin. unfold processFile. rewrite Hin.
  eexists. eexists. split; [reflexivity|].
  repeat (split; [unfold write;
                  cbn [String.eqb Ascii.eqb Bool.eqb andb]; reflexivity|]).
  intros name Hname.
  destruct (not_output_name name Hname) as (H1 & H2 & H3 & H4).
  now rewrite !write_other.
Qed.

End FileDriver.



(** X18. Whitespace before and after the bits of the input file, such
    as a final newline, does not change the output: the four files hold
    the sequences of the bit string itself. *)
Theorem processFile_ignores_surrounding_whitespace
        (inputFileName ws1 ws2 : string) (bs : list bool)
        (fs : FileSystem) :
  allSpace ws1 = true ->
  allSpace ws2 = true ->
  fs inputFileName = Some (ws1 ++ bitString bs ++ ws2)%string ->
  exists fs' console,
    processFile inputFileName fs = Done fs' console
    /\ fs' "von_neumann_output.txt"
       = Some (vonNeumannProcessing (bitString bs))
    /\ fs' "sxor_output.txt" = Some (xorProcessing (bitString bs))
    /\ fs' "sr_output.txt" = Some (residualProcessing (bitString bs))
    /\ fs' "iterated_von_neumann.txt"
       = Some (iteratedVonNeumann (bitString bs)).
Proof.
  intros H1 H2 Hin.
  destruct (processFile_done inputFileName _ fs Hin)
    as (fs' & console & Hrun & Hvn & Hxor & Hsr & Hcas & _).
  rewrite (strip_padded_bits ws1 ws2 bs H1 H2) in Hvn, Hxor, Hsr, Hcas.
  exists fs', console. repeat split; assumption.
Qed.

Lemma processFile_ignores_surrounding_whitespace_witness :
  exists fs' console,
    processFile Files.inputFileName
      (write (fun _ => None) Files.inputFileName
             (String "032" (String "010" "0110"
              ++ String "013" (String "010" ""))))
    = Done fs' console
    /\ fs' "iterated_von_neumann.txt" = Some "1101".
Proof.
  destruct (processFile_ignores_surrounding_whitespace Files.inputFileName
              (String "032" (String "010" ""))
              (String "013" (String "010" ""))
              [false; true; true; false]
              (write (fun _ => None) Files.inputFileName
                     (String "032" (String "010" "0110"
                      ++ String "013" (String "010" "")))))
    as (fs' & console & Hrun & _ & _ & _ & Hcas).
  - reflexivity.
  - reflexivity.
  - reflexivity.
  - exists fs', console. split; [exact Hrun | exact Hcas].
Defined.



(** ** The counter across recordings, and the signal test *)

Section StaleState.

Variables (thresholdClock thresholdData VOLTAGE_RANGE : Q).
Variables (totalSamples : Z) (useX10Probe : bool).

Local Abbreviation callback :=
  (samplesCallback thresholdClock thresholdData VOLTAGE_RANGE totalSamples
                   useX10Probe).

Lemma take_zero {A : Type} (l : list A) : Py.take l 0 = [].
Proof.
  unfold Py.take, Py.bound. cbn [Z.ltb Z.compare].
  replace (Z.max 0 (Z.min (Z.of_nat (List.length l)) 0)) with 0 by lia.
  reflexivity.
Qed.

(** With the counter at the cap, the callback adds nothing. *)
Lemma callback_at_cap (noOfSamples overflow : Z) (w w' : World) :
  samplesCollected w = totalSamples ->
  callback noOfSamples overflow w = Ok w' ->
  samplesCollected w' = totalSamples /\ outputFile w' = outputFile w.
Proof.
  intros Hcap. unfold samplesCallback, streamingCallback.
  destruct (overflow =? 0).
  - destruct (sampleOnEdges _ _) as [sampledBits|e]; [|discriminate].
    cbn [String.eqb Ascii.eqb Bool.eqb andb]. intros [= <-].
    cbn [samplesCollected outputFile].
    rewrite Hcap, Z.sub_diag, take_zero. cbn [map List.length].
    split; [lia | apply append_empty_r].
  - intros [= <-]. cbn [samplesCollected outputFile]. now split.
Qed.

Lemma poll_at_cap (deliveries : list Delivery) (w w' : World) :
  samplesCollected w = totalSamples ->
  getStreamingLatestValues callback deliveries w = Ok w' ->
  samplesCollected w' = totalSamples /\ outputFile w' = outputFile w.
Proof.
  revert w. induction deliveries as [|d ds IH]; intros w Hcap.
  - intros [= <-]. now split.
  - cbn [getStreamingLatestValues].
    destruct (deliver callback d w) as [w1|e] eqn:Hd; [|discriminate].
    unfold deliver in Hd.
    destruct (callback_at_cap _ _ (loadBuffers d w) w1 Hcap Hd)
      as [Hcap1 Hfile1].
    intros Hrest. destruct (IH w1 Hcap1 Hrest) as [Hcap' Hfile'].
    split; [exact Hcap' | now rewrite Hfile', Hfile1].
Qed.

End StaleState.

(** X20. [collectData] empties the output file but does not reset the
    counter: a "samples" recording that starts with [samplesCollected]
    already at the cap leaves its loop at the first check, with an empty
    output file, whatever the driver delivers. *)
Theorem recording_with_stale_counter_is_empty
        (thresholdClock thresholdData VOLTAGE_RANGE : Q)
        (useX10Probe : bool) (durationSeconds : Q) (totalSamples : Z)
        (no_signal_duration_threshold : Q)
        (statusInterval : Z) (timeStatusInterval : Q)
        (timeAtStart timeAtFirstSignal timeAtEnd : Q)
        (t : Tick) (ticks : list Tick) (w w' : World)
        (left : option LoopVars) :
  samplesCollected w = totalSamples ->
  collectData
    (samplesCallback thresholdClock thresholdData VOLTAGE_RANGE
                     totalSamples useX10Probe)
    "samples" durationSeconds totalSamples no_signal_duration_threshold
    statusInterval timeStatusInterval
    timeAtStart timeAtFirstSignal timeAtEnd (t :: ticks) w = Ok (w', left) ->
  left = None
  /\ outputFile w' = ""
  /\ samplesCollected w' = totalSamples.
Proof.
  intros Hcap. unfold collectData. cbn [whileTrue]. unfold loopIteration.
  destruct (getStreamingLatestValues _ (poll t) _) as [w0|e] eqn:Hpoll;
    [|discriminate].
  apply poll_at_cap in Hpoll; [|exact Hcap].
  destruct Hpoll as [Hcap0 Hfile0]. cbn [outputFile] in Hfile0.
  unfold stoppingConditions. cbn [String.eqb Ascii.eqb Bool.eqb andb].
  rewrite Hcap0, Z.leb_refl.
  intros [= <- <-]. cbn [say outputFile samplesCollected].
  repeat split; assumption.
Qed.

Lemma recording_with_stale_counter_is_empty_witness :
  exists w' left,
    collectData
      (samplesCallback THRESHOLD_CLOCK THRESHOLD_DATA VOLTAGE_RANGE 2 true)
      "samples" DURATION_SECONDS 2 3 10000 5 0 0 1
      [mkTick [mkDelivery [0; 32767; 0; 32767] [32767; 0; 32767; 0] 4 0]
              1 1 1]
      {| bufferClock := [0; 32767; 0; 32767];
         bufferData := [32767; 0; 32767; 0];
         samplesCollected := 2;
         outputFile := "11";
         console := [] |} = Ok (w', left)
    /\ outputFile w' = "".
Proof.
  eexists. eexists. split; [reflexivity|].
  eapply (proj1 (proj2 (recording_with_stale_counter_is_empty
                   THRESHOLD_CLOCK THRESHOLD_DATA VOLTAGE_RANGE true
                   DURATION_SECONDS 2 3 10000 5 0 0 1
                   (mkTick [mkDelivery [0; 32767; 0; 32767]
                                       [32767; 0; 32767; 0] 4 0] 1 1 1)
                   []
                   {| bufferClock := [0; 32767; 0; 32767];
                      bufferData := [32767; 0; 32767; 0];
                      samplesCollected := 2;
                      outputFile := "11";
                      console := [] |} _ _ _ _))).
  Unshelve.
  - exact None.
  - reflexivity.
  - reflexivity.
Defined.

(** X21. The signal test reads the buffers, not the deliveries: while a
    buffer holds a non-zero sample, every iteration refreshes
    [lastSignalTime], so in a mode that is neither "time" nor "samples"
    (the only place where the no-signal branch is reached) a source that
    delivers nothing more never ends the loop, as long as one iteration
    takes less than the threshold. *)
Theorem stale_buffers_keep_the_signal_alive
        (callback : Callback) (mode : string)
        (durationSeconds : Q) (totalSamples : Z)
        (no_signal_duration_threshold : Q)
        (statusInterval : Z) (timeStatusInterval : Q)
        (ticks : list Tick) (vars : LoopVars) (w : World) :
  mode <> "time" ->
  mode <> "samples" ->
  Np.allZero (bufferClock w) && Np.allZero (bufferData w) = false ->
  (forall t, In t ticks ->
     poll t = []
     /\ Qle_bool no_signal_duration_threshold
                 (timeAtCheck t - timeAtSignal t) = false) ->
  exists vars',
    whileTrue callback mode durationSeconds totalSamples
      no_signal_duration_threshold statusInterval timeStatusInterval
      ticks vars w = Ok (w, Some vars').
Proof.
  intros Htime Hsamples Hsignal.
  apply String.eqb_neq in Htime, Hsamples.
  revert vars. induction ticks as [|t ticks IH]; intros vars Hticks.
  - exists vars. reflexivity.
  - destruct (Hticks t (or_introl eq_refl)) as [Hpoll Hquick].
    cbn [whileTrue]. unfold loopIteration. rewrite Hpoll.
    cbn [getStreamingLatestValues].
    unfold refreshSignal. rewrite Hsignal. cbn [negb].
    unfold stoppingConditions. rewrite Htime, Hsamples.
    cbn [lastSignalTime]. rewrite Hquick.
    apply IH. intros t' Ht'. apply Hticks. now right.
Qed.

Lemma stale_buffers_keep_the_signal_alive_witness :
  exists vars',
    whileTrue (cFuncPtr "neither" TOTAL_SAMPLES) "neither" DURATION_SECONDS
      TOTAL_SAMPLES 3 10000 5
      [mkTick [] 100 100 101; mkTick [] 200 200 201]
      (initialVars 0 0) togglingBatch = Ok (togglingBatch, Some vars').
Proof.
  apply (stale_buffers_keep_the_signal_alive
           (cFuncPtr "neither" TOTAL_SAMPLES) "neither" DURATION_SECONDS
           TOTAL_SAMPLES 3 10000 5
           [mkTick [] 100 100 101; mkTick [] 200 200 201]
           (initialVars 0 0) togglingBatch).
  - discriminate.
  - discriminate.
  - reflexivity.
  - intros t [<- | [<- | []]]; split; reflexivity.
Defined.
